(** * Biblioteca UCC: a shallow embedding of the lending core

    The Python package [biblioteca_ucc] lends catalogue resources, stacks
    optional services around a base loan (Decorator), computes late fees with
    interchangeable policies (Strategy) and bills the result.  This file
    embeds the classes of

      - [recursos/recurso.py], [recursos/fabrica_recursos.py]
      - [estrategias/estrategia_multa.py]
      - [prestamos/prestamo_base.py], [decoradores/decorador_prestamo.py]
      - [facturacion.py]

    and states the properties of the specification as theorems over the
    embedding.

    Conventions of the embedding.

      - A Python [int] is a [Z].  A Python [float] is an exact rational [Q]
        compared with [==]: every float constant of the package (0.0, 0.5,
        1.0, 2.0, 2.5, 3.0, 5.0, 10.0, 15.0) is a dyadic rational and the
        package only adds them and multiplies them by integers, which binary64
        does without rounding error below 2^53; NaN and infinities do not
        occur.
      - A naive [datetime] is its number of microseconds since an arbitrary
        epoch; a [timedelta] is a number of microseconds.  The range limits
        of [datetime] (years 1..9999) are not modelled.
      - [datetime.now()] reads a clock that is part of the state: the k-th
        call returns the k-th reading.
      - A method is a computation over the fields of the object it may assign
        ([self]), the clock, and a result that is either a returned value or a
        raised exception; an exception leaves the state as it was when raised.
      - Objects a method only reads are passed by value.
      - Console output ([print]) is not modelled. *)

From Stdlib Require Import ZArith QArith Qabs List String Ascii Lia Lqa.
From Stdlib Require Import Permutation DecimalString.
From Stdlib Require DecimalPos DecimalZ.
Import ListNotations.

Local Open Scope Z_scope.

(** ** The Python runtime, as far as the package uses it *)

Definition datetime : Type := Z.
Definition timedelta : Type := Z.

Definition MICROSEGUNDOS_POR_DIA : Z := 86400000000.

(** [timedelta(days=n)] *)
Definition timedelta_days (n : Z) : timedelta := n * MICROSEGUNDOS_POR_DIA.

(** [delta.days]: a timedelta is normalised with
    [0 <= seconds < 86400], so [days] is the floor of the quotient. *)
Definition days (delta : timedelta) : Z := delta / MICROSEGUNDOS_POR_DIA.

Inductive Excepcion : Type :=
| ValueError (mensaje : string)
| AttributeError (mensaje : string).

Inductive Resultado (A : Type) : Type :=
| Retorna (a : A)
| Lanza (e : Excepcion).
Arguments Retorna {A} a.
Arguments Lanza {A} e.

(** The clock: [lecturas k] is what the k-th call of [datetime.now()]
    returns, [tic] counts the calls made so far. *)
Record Reloj : Type := { lecturas : nat -> datetime; tic : nat }.

Definition avanzar (r : Reloj) : Reloj :=
  {| lecturas := lecturas r; tic := S (tic r) |}.

(** A clock that never goes back. *)
Definition monotono (r : Reloj) : Prop :=
  forall i j : nat, (i <= j)%nat -> lecturas r i <= lecturas r j.

(** A method running on a receiver of type [Obj]. *)
Definition M (Obj A : Type) : Type := Obj -> Reloj -> Resultado A * Obj * Reloj.

Definition ret {Obj A} (a : A) : M Obj A := fun self r => (Retorna a, self, r).

Definition bind {Obj A B} (m : M Obj A) (k : A -> M Obj B) : M Obj B :=
  fun self r =>
    match m self r with
    | (Retorna a, self', r') => k a self' r'
    | (Lanza e, self', r') => (Lanza e, self', r')
    end.

Definition lanzar {Obj A} (e : Excepcion) : M Obj A :=
  fun self r => (Lanza e, self, r).

Definition leer {Obj} : M Obj Obj := fun self r => (Retorna self, self, r).

Definition mutar {Obj} (f : Obj -> Obj) : M Obj unit :=
  fun self r => (Retorna tt, f self, r).

Definition datetime_now {Obj} : M Obj datetime :=
  fun self r => (Retorna (lecturas r (tic r)), self, avanzar r).

(** Calling a method of another object [o] that the caller holds in a local
    variable: the callee runs on [o] with the caller's clock; the caller gets
    the result together with the object as the callee left it. *)
Definition sobre {Obj Otro A} (o : Otro) (m : M Otro A) : M Obj (A * Otro) :=
  fun self r =>
    match m o r with
    | (Retorna a, o', r') => (Retorna (a, o'), self, r')
    | (Lanza e, _, r') => (Lanza e, self, r')
    end.

Declare Scope metodo_scope.
Delimit Scope metodo_scope with metodo.
Notation "x <- m ;; k" := (bind m (fun x => k))
  (at level 61, m at next level, right associativity) : metodo_scope.
Notation "m ;; k" := (bind m (fun _ => k))
  (at level 61, right associativity) : metodo_scope.
Local Open Scope metodo_scope.

Definition Qlt_bool (x y : Q) : bool := negb (Qle_bool y x).

(** [max(a, b)] of two floats: the first argument unless the second is
    strictly greater. *)
Definition max (a b : Q) : Q := if Qlt_bool a b then b else a.

(** Rounding to the nearest integer, ties to the even one. *)
Definition redondeo_par (q : Q) : Z :=
  let n := Qnum q in
  let d := Zpos (Qden q) in
  let piso := n / d in
  match (2 * (n mod d) ?= d) with
  | Lt => piso
  | Gt => piso + 1
  | Eq => if Z.even piso then piso else piso + 1
  end.

(** [round(q, ndigits)] for [ndigits >= 0]. *)
Definition round (q : Q) (ndigits : nat) : Q :=
  let p := inject_Z (10 ^ Z.of_nat ndigits) in
  (inject_Z (redondeo_par (q * p)) / p)%Q.

(** [range(a, b)] *)
Definition range (a b : Z) : list Z :=
  map (fun i => a + Z.of_nat i) (seq 0 (Z.to_nat (b - a))).

(** [sum(xs)] over floats: starts from 0 and adds from the left. *)
Definition sum (xs : list Q) : Q := fold_left Qplus xs 0%Q.

(** [str(n)] of an [int]. *)
Definition str_int (n : Z) : string := NilZero.string_of_int (Z.to_int n).

(** ** recursos/recurso.py *)

(** The three subclasses of [Recurso] with the fields each adds.  A field
    holds [None] when the factory found no such key in its payload. *)
Inductive Variante : Type :=
| LibroImpreso (numero_paginas : option Z) (editorial : option string)
| Revista (numero_edicion : option Z) (mes_publicacion : option string)
| RecursoDigital (formato : option string) (tamaño_mb : option Q)
                 (url_acceso : option string).

Record Recurso : Type := {
  titulo : option string;
  autor : option string;
  isbn : option string;
  fecha_adquisicion : datetime;
  disponible : bool;
  variante : Variante
}.

Module Recurso.

(** [Recurso.__init__]: a new resource is available. *)
Definition __init__ (titulo autor isbn : option string)
    (fecha_adquisicion : datetime) (v : Variante) : Recurso :=
  {| titulo := titulo; autor := autor; isbn := isbn;
     fecha_adquisicion := fecha_adquisicion;
     disponible := true; variante := v |}.

Definition cambiar_disponibilidad (self : Recurso) (d : bool) : Recurso :=
  {| titulo := titulo self; autor := autor self; isbn := isbn self;
     fecha_adquisicion := fecha_adquisicion self;
     disponible := d; variante := variante self |}.

Definition calcular_antiguedad_dias {Obj} (self : Recurso) : M Obj Z :=
  ahora <- datetime_now ;;
  ret (days (ahora - fecha_adquisicion self)).

Definition obtener_duracion_prestamo_base (self : Recurso) : Z :=
  match variante self with
  | LibroImpreso _ _ => 14
  | Revista _ _ => 7
  | RecursoDigital _ _ _ => 30
  end.

Definition obtener_tipo_recurso (self : Recurso) : string :=
  match variante self with
  | LibroImpreso _ _ => "Libro Impreso"
  | Revista _ _ => "Revista"
  | RecursoDigital _ _ _ => "Recurso Digital"
  end.

End Recurso.

(** ** recursos/fabrica_recursos.py *)

(** The keyword payload [kwargs] of [crear_recurso], restricted to the keys
    the factories read and typed as their docstrings say.  [kwargs.get(k)]
    is [None] exactly when the key is absent. *)
Record Kwargs : Type := {
  kw_titulo : option string;
  kw_autor : option string;
  kw_isbn : option string;
  kw_fecha_adquisicion : option datetime;
  kw_numero_paginas : option Z;
  kw_editorial : option string;
  kw_numero_edicion : option Z;
  kw_mes_publicacion : option string;
  kw_formato : option string;
  kw_tamaño_mb : option Q;
  kw_url_acceso : option string
}.

(** [kwargs.get(k, default)] *)
Definition get_default {A} (v : option A) (default : A) : A :=
  match v with Some a => a | None => default end.

Inductive FabricaDeRecursos : Type :=
| FabricaLibroImpreso
| FabricaRevista
| FabricaRecursoDigital.

Module FabricaDeRecursos.

(** Every factory evaluates [datetime.now()] for the default of
    [fecha_adquisicion] before looking the key up. *)
Definition crear_recurso {Obj} (self : FabricaDeRecursos) (kwargs : Kwargs)
  : M Obj Recurso :=
  ahora <- datetime_now ;;
  let fecha := get_default (kw_fecha_adquisicion kwargs) ahora in
  ret (Recurso.__init__ (kw_titulo kwargs) (kw_autor kwargs) (kw_isbn kwargs)
         fecha
         match self with
         | FabricaLibroImpreso =>
             LibroImpreso (kw_numero_paginas kwargs) (kw_editorial kwargs)
         | FabricaRevista =>
             Revista (kw_numero_edicion kwargs) (kw_mes_publicacion kwargs)
         | FabricaRecursoDigital =>
             RecursoDigital (kw_formato kwargs) (kw_tamaño_mb kwargs)
                            (kw_url_acceso kwargs)
         end).

Definition registrar_recurso {Obj} (self : FabricaDeRecursos)
    (kwargs : Kwargs) : M Obj Recurso :=
  recurso <- crear_recurso self kwargs ;;
  ret recurso.

End FabricaDeRecursos.

Record GestorDeInventario : Type := { recursos : list Recurso }.

Module GestorDeInventario.

Definition __init__ : GestorDeInventario := {| recursos := [] |}.

Definition agregar_recurso_con_fabrica (fabrica : FabricaDeRecursos)
    (kwargs : Kwargs) : M GestorDeInventario Recurso :=
  recurso <- FabricaDeRecursos.registrar_recurso fabrica kwargs ;;
  mutar (fun self => {| recursos := recursos self ++ [recurso] |}) ;;
  ret recurso.

Fixpoint buscar (isbn_buscado : string) (rs : list Recurso) : option Recurso :=
  match rs with
  | [] => None
  | recurso :: rs' =>
      match isbn recurso with
      | Some i => if String.eqb i isbn_buscado then Some recurso
                  else buscar isbn_buscado rs'
      | None => buscar isbn_buscado rs'
      end
  end.

Definition obtener_recurso_por_isbn (self : GestorDeInventario)
    (isbn_buscado : string) : option Recurso :=
  buscar isbn_buscado (recursos self).

End GestorDeInventario.

(** ** estrategias/estrategia_multa.py *)

(** The four concrete classes that implement [IEstrategiaDeMulta].  None of
    them has fields: an instance is determined by its class. *)
Inductive IEstrategiaDeMulta : Type :=
| MultaEstudianteStrategy
| MultaDocenteStrategy
| MultaRecargadaStrategy
| MultaPorAntiguedadRecursoStrategy.

Module MultaEstudianteStrategy.

Definition TARIFA_BASE_DIA : Q := 2.0.
Definition ANTIGUEDAD_UMBRAL_DIAS : Z := 365 * 5.
Definition DESCUENTO_RECURSO_ANTIGUO : Q := 0.5.

Definition calcular_multa {Obj} (dias_retraso : Z) (costo_base_recurso : Q)
    (recurso : Recurso) : M Obj Q :=
  if dias_retraso <=? 0 then ret 0.0%Q
  else
    let multa := (TARIFA_BASE_DIA * inject_Z dias_retraso)%Q in
    antiguedad_dias <- Recurso.calcular_antiguedad_dias recurso ;;
    let multa :=
      if ANTIGUEDAD_UMBRAL_DIAS <? antiguedad_dias
      then (multa * DESCUENTO_RECURSO_ANTIGUO)%Q
      else multa in
    let multa := max multa 1.0 in
    ret (round multa 2).

Definition obtener_nombre_estrategia : string :=
  "Estrategia de Multa para Estudiantes".

End MultaEstudianteStrategy.

Module MultaDocenteStrategy.

Definition TARIFA_BASE_DIA : Q := 1.0.
Definition DIAS_GRACIA : Z := 3.

Definition calcular_multa {Obj} (dias_retraso : Z) (costo_base_recurso : Q)
    (recurso : Recurso) : M Obj Q :=
  if dias_retraso <=? 0 then ret 0.0%Q
  else
    let dias_penalizables := Z.max 0 (dias_retraso - DIAS_GRACIA) in
    if dias_penalizables =? 0 then ret 0.0%Q
    else
      let multa := (TARIFA_BASE_DIA * inject_Z dias_penalizables)%Q in
      ret (round multa 2).

Definition obtener_nombre_estrategia : string :=
  "Estrategia de Multa para Docentes".

End MultaDocenteStrategy.

Module MultaRecargadaStrategy.

Definition TARIFA_INICIAL : Q := 3.0.
Definition INCREMENTO_DIARIO : Q := 0.5.

(** One turn of the loop body: [multa += tarifa_dia]. *)
Definition paso (multa : Q) (dia : Z) : Q :=
  let tarifa_dia := (TARIFA_INICIAL + INCREMENTO_DIARIO * inject_Z (dia - 1))%Q in
  (multa + tarifa_dia)%Q.

Definition calcular_multa {Obj} (dias_retraso : Z) (costo_base_recurso : Q)
    (recurso : Recurso) : M Obj Q :=
  if dias_retraso <=? 0 then ret 0.0%Q
  else
    let multa := fold_left paso (range 1 (dias_retraso + 1)) 0.0%Q in
    ret (round multa 2).

Definition obtener_nombre_estrategia : string :=
  "Estrategia de Multa Recargada (Progresiva)".

End MultaRecargadaStrategy.

Module MultaPorAntiguedadRecursoStrategy.

Definition TARIFA_RECURSO_NUEVO : Q := 5.0.
Definition TARIFA_RECURSO_MEDIO : Q := 2.5.
Definition TARIFA_RECURSO_ANTIGUO : Q := 1.0.

(** The rate chosen from the age in days; [/] is true division. *)
Definition tarifa_segun_antiguedad (antiguedad_dias : Z) : Q :=
  let antiguedad_años := (inject_Z antiguedad_dias / 365)%Q in
  if Qlt_bool antiguedad_años 1 then TARIFA_RECURSO_NUEVO
  else if Qlt_bool antiguedad_años 5 then TARIFA_RECURSO_MEDIO
  else TARIFA_RECURSO_ANTIGUO.

Definition calcular_multa {Obj} (dias_retraso : Z) (costo_base_recurso : Q)
    (recurso : Recurso) : M Obj Q :=
  if dias_retraso <=? 0 then ret 0.0%Q
  else
    antiguedad_dias <- Recurso.calcular_antiguedad_dias recurso ;;
    let tarifa := tarifa_segun_antiguedad antiguedad_dias in
    let multa := (tarifa * inject_Z dias_retraso)%Q in
    ret (round multa 2).

Definition obtener_nombre_estrategia : string :=
  "Estrategia de Multa por Antigüedad del Recurso".

End MultaPorAntiguedadRecursoStrategy.

(** Dynamic dispatch on the class of the strategy object. *)
Module IEstrategiaDeMulta.

Definition calcular_multa {Obj} (self : IEstrategiaDeMulta)
    (dias_retraso : Z) (costo_base_recurso : Q) (recurso : Recurso)
  : M Obj Q :=
  match self with
  | MultaEstudianteStrategy =>
      MultaEstudianteStrategy.calcular_multa dias_retraso costo_base_recurso recurso
  | MultaDocenteStrategy =>
      MultaDocenteStrategy.calcular_multa dias_retraso costo_base_recurso recurso
  | MultaRecargadaStrategy =>
      MultaRecargadaStrategy.calcular_multa dias_retraso costo_base_recurso recurso
  | MultaPorAntiguedadRecursoStrategy =>
      MultaPorAntiguedadRecursoStrategy.calcular_multa
        dias_retraso costo_base_recurso recurso
  end.

Definition obtener_nombre_estrategia (self : IEstrategiaDeMulta) : string :=
  match self with
  | MultaEstudianteStrategy => MultaEstudianteStrategy.obtener_nombre_estrategia
  | MultaDocenteStrategy => MultaDocenteStrategy.obtener_nombre_estrategia
  | MultaRecargadaStrategy => MultaRecargadaStrategy.obtener_nombre_estrategia
  | MultaPorAntiguedadRecursoStrategy =>
      MultaPorAntiguedadRecursoStrategy.obtener_nombre_estrategia
  end.

End IEstrategiaDeMulta.

(** ** prestamos/prestamo_base.py *)

(** [estrategia_multa] is [None] when the loan was built without a policy. *)
Record PrestamoBase : Type := {
  recurso : Recurso;
  usuario : string;
  fecha_prestamo : datetime;
  estrategia_multa : option IEstrategiaDeMulta;
  costo_base : Q
}.

(** [str(x)] of an optional string: [None] prints as its name. *)
Definition str_opt (s : option string) : string :=
  match s with Some x => x | None => "None" end.

Module PrestamoBase.

(** The constructor stamps the loan with the current time, starts with a
    cost of 0.0 and marks the resource as on loan. *)
Definition __init__ {Obj} (recurso : Recurso) (usuario : string)
    (estrategia_multa : option IEstrategiaDeMulta) : M Obj PrestamoBase :=
  ahora <- datetime_now ;;
  ret {| recurso := Recurso.cambiar_disponibilidad recurso false;
         usuario := usuario;
         fecha_prestamo := ahora;
         estrategia_multa := estrategia_multa;
         costo_base := 0.0 |}.

Definition establecer_estrategia_multa (self : PrestamoBase)
    (estrategia : option IEstrategiaDeMulta) : PrestamoBase :=
  {| recurso := recurso self; usuario := usuario self;
     fecha_prestamo := fecha_prestamo self;
     estrategia_multa := estrategia;
     costo_base := costo_base self |}.

Definition obtener_duracion_dias (self : PrestamoBase) : Z :=
  Recurso.obtener_duracion_prestamo_base (recurso self).

Definition obtener_costo_base (self : PrestamoBase) : Q := costo_base self.

Definition obtener_descripcion (self : PrestamoBase) : string :=
  ("Préstamo de '" ++ str_opt (titulo (recurso self)) ++ "' a "
     ++ usuario self)%string.

Definition obtener_fecha_devolucion (self : PrestamoBase) : datetime :=
  fecha_prestamo self + timedelta_days (obtener_duracion_dias self).

(** The clock is read for the comparison and, when the loan is overdue,
    once more for the difference. *)
Definition calcular_dias_retraso {Obj} (self : PrestamoBase) : M Obj Z :=
  let fecha_devolucion := obtener_fecha_devolucion self in
  ahora <- datetime_now ;;
  if fecha_devolucion <? ahora then
    ahora' <- datetime_now ;;
    ret (days (ahora' - fecha_devolucion))
  else ret 0.

Definition calcular_multa {Obj} (self : PrestamoBase) : M Obj Q :=
  match estrategia_multa self with
  | None =>
      lanzar (ValueError
        "No se ha establecido una estrategia de multa para este préstamo")
  | Some estrategia =>
      dias_retraso <- calcular_dias_retraso self ;;
      if dias_retraso <=? 0 then ret 0.0%Q
      else
        IEstrategiaDeMulta.calcular_multa estrategia dias_retraso
          (obtener_costo_base self) (recurso self)
  end.

Definition devolver_recurso (self : PrestamoBase) : PrestamoBase :=
  {| recurso := Recurso.cambiar_disponibilidad (recurso self) true;
     usuario := usuario self;
     fecha_prestamo := fecha_prestamo self;
     estrategia_multa := estrategia_multa self;
     costo_base := costo_base self |}.

End PrestamoBase.

(** ** decoradores/decorador_prestamo.py *)

(** Everything that implements [IPrestamo]: a base loan, or one of the three
    concrete decorators around another [IPrestamo] (its [prestamo_envuelto]). *)
Inductive IPrestamo : Type :=
| Base (prestamo : PrestamoBase)
| DecoradorNotificacionSMS (prestamo_envuelto : IPrestamo)
                           (numero_telefono : string)
| DecoradorReservaPreferencial (prestamo_envuelto : IPrestamo) (prioridad : Z)
| DecoradorSeguroExtravio (prestamo_envuelto : IPrestamo) (monto_cobertura : Q).

Module DecoradorNotificacionSMS.
Definition COSTO_SERVICIO_SMS : Q := 5.0.
End DecoradorNotificacionSMS.

Module DecoradorReservaPreferencial.
Definition COSTO_RESERVA_PREFERENCIAL : Q := 10.0.
Definition DIAS_ADICIONALES : Z := 7.
End DecoradorReservaPreferencial.

Module DecoradorSeguroExtravio.
Definition COSTO_SEGURO : Q := 15.0.
End DecoradorSeguroExtravio.

Definition dos_digitos (n : Z) : string :=
  if n <? 10 then ("0" ++ str_int n)%string else str_int n.

(** [f"{q:.2f}"]: two decimals, ties to even, the sign of a negative number
    kept even when it rounds to zero. *)
Definition format_2f (q : Q) : string :=
  let centesimas := redondeo_par (Qabs q * 100) in
  ((if Qlt_bool q 0 then "-" else "")
     ++ str_int (centesimas / 100) ++ "." ++ dos_digitos (centesimas mod 100))%string.

(** The four methods of the interface.  A decorator that does not override a
    method inherits the one of [DecoradorPrestamo], which delegates to the
    wrapped loan. *)
Module IPrestamo.

Fixpoint obtener_duracion_dias (self : IPrestamo) : Z :=
  match self with
  | Base p => PrestamoBase.obtener_duracion_dias p
  | DecoradorNotificacionSMS envuelto _ => obtener_duracion_dias envuelto
  | DecoradorReservaPreferencial envuelto _ =>
      obtener_duracion_dias envuelto
      + DecoradorReservaPreferencial.DIAS_ADICIONALES
  | DecoradorSeguroExtravio envuelto _ => obtener_duracion_dias envuelto
  end.

Fixpoint obtener_costo_base (self : IPrestamo) : Q :=
  match self with
  | Base p => PrestamoBase.obtener_costo_base p
  | DecoradorNotificacionSMS envuelto _ =>
      (obtener_costo_base envuelto
       + DecoradorNotificacionSMS.COSTO_SERVICIO_SMS)%Q
  | DecoradorReservaPreferencial envuelto _ =>
      (obtener_costo_base envuelto
       + DecoradorReservaPreferencial.COSTO_RESERVA_PREFERENCIAL)%Q
  | DecoradorSeguroExtravio envuelto _ =>
      (obtener_costo_base envuelto + DecoradorSeguroExtravio.COSTO_SEGURO)%Q
  end.

Fixpoint obtener_descripcion (self : IPrestamo) : string :=
  match self with
  | Base p => PrestamoBase.obtener_descripcion p
  | DecoradorNotificacionSMS envuelto numero_telefono =>
      (obtener_descripcion envuelto ++ " "
         ++ "+ Notificación SMS al " ++ numero_telefono)%string
  | DecoradorReservaPreferencial envuelto prioridad =>
      (obtener_descripcion envuelto ++ " "
         ++ "+ Reserva Preferencial (Prioridad " ++ str_int prioridad ++ ")")%string
  | DecoradorSeguroExtravio envuelto monto_cobertura =>
      (obtener_descripcion envuelto ++ " "
         ++ "+ Seguro contra Extravío (Cobertura: $"
         ++ format_2f monto_cobertura ++ ")")%string
  end.

(** No concrete decorator overrides [obtener_fecha_devolucion]. *)
Fixpoint obtener_fecha_devolucion (self : IPrestamo) : datetime :=
  match self with
  | Base p => PrestamoBase.obtener_fecha_devolucion p
  | DecoradorNotificacionSMS envuelto _ => obtener_fecha_devolucion envuelto
  | DecoradorReservaPreferencial envuelto _ => obtener_fecha_devolucion envuelto
  | DecoradorSeguroExtravio envuelto _ => obtener_fecha_devolucion envuelto
  end.

(** The loop the callers use to reach the innermost loan:
    [while hasattr(p, 'prestamo_envuelto'): p = p.prestamo_envuelto]. *)
Fixpoint prestamo_mas_interno (self : IPrestamo) : PrestamoBase :=
  match self with
  | Base p => p
  | DecoradorNotificacionSMS envuelto _ => prestamo_mas_interno envuelto
  | DecoradorReservaPreferencial envuelto _ => prestamo_mas_interno envuelto
  | DecoradorSeguroExtravio envuelto _ => prestamo_mas_interno envuelto
  end.

End IPrestamo.

(** ** facturacion.py *)

Record ItemFactura : Type := {
  descripcion : string;
  cantidad : Z;
  valor_unitario : Q;
  tipo : string
}.

Module ItemFactura.
Definition subtotal (self : ItemFactura) : Q :=
  (inject_Z (cantidad self) * valor_unitario self)%Q.
End ItemFactura.

Record Factura : Type := {
  numero_factura : string;
  prestamo : IPrestamo;
  prestamo_base : PrestamoBase;
  items : list ItemFactura;
  fecha_emision : datetime
}.

Module Factura.

(** [self.items.append(item)] *)
Definition items_append (item : ItemFactura) : M Factura unit :=
  mutar (fun self =>
    {| numero_factura := numero_factura self;
       prestamo := prestamo self;
       prestamo_base := prestamo_base self;
       items := items self ++ [item];
       fecha_emision := fecha_emision self |}).

(** The [while hasattr(prestamo_actual, 'prestamo_envuelto')] loop: one
    item per decorator, outermost first; it stops at the base loan, which
    has no such attribute. *)
Fixpoint recorrer_decoradores (prestamo_actual : IPrestamo) : M Factura unit :=
  match prestamo_actual with
  | Base _ => ret tt
  | DecoradorNotificacionSMS envuelto numero_telefono =>
      items_append
        {| descripcion := "Servicio de Notificacion SMS a " ++ numero_telefono;
           cantidad := 1;
           valor_unitario := DecoradorNotificacionSMS.COSTO_SERVICIO_SMS;
           tipo := "SERVICIO" |} ;;
      recorrer_decoradores envuelto
  | DecoradorReservaPreferencial envuelto prioridad =>
      items_append
        {| descripcion :=
             "Reserva Preferencial (Prioridad " ++ str_int prioridad ++ ")";
           cantidad := 1;
           valor_unitario :=
             DecoradorReservaPreferencial.COSTO_RESERVA_PREFERENCIAL;
           tipo := "SERVICIO" |} ;;
      recorrer_decoradores envuelto
  | DecoradorSeguroExtravio envuelto monto_cobertura =>
      items_append
        {| descripcion :=
             "Seguro contra Extravio (Cobertura $"
               ++ format_2f monto_cobertura ++ ")";
           cantidad := 1;
           valor_unitario := DecoradorSeguroExtravio.COSTO_SEGURO;
           tipo := "SERVICIO" |} ;;
      recorrer_decoradores envuelto
  end.

Definition _generar_items : M Factura unit :=
  self <- leer ;;
  (if Qlt_bool 0 (PrestamoBase.obtener_costo_base (prestamo_base self))
   then items_append
          {| descripcion := "Prestamo Base del Recurso";
             cantidad := 1;
             valor_unitario :=
               PrestamoBase.obtener_costo_base (prestamo_base self);
             tipo := "RECURSO" |}
   else ret tt) ;;
  recorrer_decoradores (prestamo self).

Definition __init__ {Obj} (numero_factura : string) (prestamo : IPrestamo)
    (prestamo_base : PrestamoBase) : M Obj Factura :=
  ahora <- datetime_now ;;
  generada <- sobre {| numero_factura := numero_factura;
                       prestamo := prestamo;
                       prestamo_base := prestamo_base;
                       items := [];
                       fecha_emision := ahora |}
                    _generar_items ;;
  ret (snd generada).

(** [self.prestamo_base.estrategia_multa.obtener_nombre_estrategia()]:
    an attribute lookup on [None] raises. *)
Definition nombre_de_estrategia {Obj} (e : option IEstrategiaDeMulta)
  : M Obj string :=
  match e with
  | Some estrategia =>
      ret (IEstrategiaDeMulta.obtener_nombre_estrategia estrategia)
  | None =>
      lanzar (AttributeError
        "'NoneType' object has no attribute 'obtener_nombre_estrategia'")
  end.

Definition agregar_multa : M Factura Q :=
  self <- leer ;;
  dias_retraso <- PrestamoBase.calcular_dias_retraso (prestamo_base self) ;;
  if 0 <? dias_retraso then
    multa <- PrestamoBase.calcular_multa (prestamo_base self) ;;
    estrategia <- nombre_de_estrategia (estrategia_multa (prestamo_base self)) ;;
    items_append
      {| descripcion :=
           "Multa por " ++ str_int dias_retraso ++ " dias de retraso ("
             ++ estrategia ++ ")";
         cantidad := 1;
         valor_unitario := multa;
         tipo := "MULTA" |} ;;
    ret multa
  else ret 0.0%Q.

Definition calcular_subtotal (self : Factura) : Q :=
  sum (map ItemFactura.subtotal (items self)).

Definition calcular_iva (self : Factura) (porcentaje : Q) : Q :=
  (calcular_subtotal self * porcentaje)%Q.

Definition calcular_total (self : Factura) (porcentaje_iva : Q) : Q :=
  (calcular_subtotal self + calcular_iva self porcentaje_iva)%Q.

(** The effects of [generar_factura_texto]: the optional [agregar_multa],
    the clock reading of the overdue line and the strategy name of the
    footer.  The text itself is presentation only and is not modelled. *)
Definition generar_factura_texto (incluir_multa : bool) : M Factura unit :=
  (if incluir_multa then (_ <- agregar_multa ;; ret tt) else ret tt) ;;
  self <- leer ;;
  _ <- PrestamoBase.calcular_dias_retraso (prestamo_base self) ;;
  _ <- nombre_de_estrategia (estrategia_multa (prestamo_base self)) ;;
  ret tt.

Definition obtener_resumen (self : Factura) : Z * Q * Q :=
  (Z.of_nat (List.length (items self)), calcular_subtotal self,
   calcular_total self 0.0).

End Factura.

Fixpoint ceros (k : nat) : string :=
  match k with
  | O => ""
  | S k' => ("0" ++ ceros k')%string
  end.

(** [f"{n:06d}"]: at least six characters, zeros between sign and digits. *)
Definition format_06d (n : Z) : string :=
  let signo := if n <? 0 then "-"%string else ""%string in
  let cifras := str_int (Z.abs n) in
  (signo ++ ceros (6 - String.length signo - String.length cifras) ++ cifras)%string.

Record GestorFacturacion : Type := {
  contador_facturas : Z;
  facturas_generadas : list Factura
}.

Module GestorFacturacion.

Definition __init__ : GestorFacturacion :=
  {| contador_facturas := 1; facturas_generadas := [] |}.

Definition generar_numero_factura : M GestorFacturacion string :=
  self <- leer ;;
  let numero := ("FACT-UCC-" ++ format_06d (contador_facturas self))%string in
  mutar (fun self =>
    {| contador_facturas := contador_facturas self + 1;
       facturas_generadas := facturas_generadas self |}) ;;
  ret numero.

(** The ledger is modelled as holding the invoice as it is when recorded; a
    later [agregar_multa] on the returned invoice is seen on the returned
    invoice only. *)
Definition crear_factura (prestamo : IPrestamo) (prestamo_base : PrestamoBase)
    (incluir_multa : bool) : M GestorFacturacion Factura :=
  numero <- generar_numero_factura ;;
  factura <- Factura.__init__ numero prestamo prestamo_base ;;
  factura <- (if incluir_multa
              then (llamada <- sobre factura Factura.agregar_multa ;;
                    ret (snd llamada))
              else ret factura) ;;
  mutar (fun self =>
    {| contador_facturas := contador_facturas self;
       facturas_generadas := facturas_generadas self ++ [factura] |}) ;;
  ret factura.

Definition obtener_total_facturado (self : GestorFacturacion) : Q :=
  sum (map (fun f => Factura.calcular_total f 0.0) (facturas_generadas self)).

Definition obtener_cantidad_facturas (self : GestorFacturacion) : Z :=
  Z.of_nat (List.length (facturas_generadas self)).

End GestorFacturacion.


(** ** sistema_interactivo.py: the steps of the callers that touch a loan *)


(** * Definitions used by the statements *)

(** The closed form of the specification for the progressive policy:
    [daysLate * 3.00 + 0.50 * daysLate*(daysLate-1)/2]. *)
Definition forma_cerrada_recargada (dias : Z) : Q :=
  (inject_Z dias * 3.00 + 0.50 * inject_Z dias * inject_Z (dias - 1) / 2)%Q.

(** The three parts of what a call leaves behind. *)
Definition resultado_de {Obj A} (x : Resultado A * Obj * Reloj) : Resultado A :=
  fst (fst x).
Definition objeto_tras {Obj A} (x : Resultado A * Obj * Reloj) : Obj :=
  snd (fst x).
Definition reloj_tras {Obj A} (x : Resultado A * Obj * Reloj) : Reloj := snd x.

(** ** Sample objects *)

Definition recurso_de_prueba : Recurso :=
  Recurso.__init__ (Some "Clean Code"%string) (Some "Robert C. Martin"%string)
    (Some "978-0132350884"%string) 0
    (LibroImpreso (Some 464) (Some "Prentice Hall"%string)).

(** A clock stopped at [t]. *)
Definition reloj_detenido (t : datetime) : Reloj :=
  {| lecturas := fun _ => t; tic := 0 |}.

(** The sample book lent at time 0, with the given policy. *)
Definition prestamo_de_prueba (e : option IEstrategiaDeMulta) : PrestamoBase :=
  {| recurso := Recurso.cambiar_disponibilidad recurso_de_prueba false;
     usuario := "Maria Rodriguez";
     fecha_prestamo := 0;
     estrategia_multa := e;
     costo_base := 0.0 |}.

(** ** Chains of decorators *)

(** What a caller chooses when it decorates a loan: the decorator class and
    the argument of its constructor. *)
Inductive Servicio : Type :=
| ServicioSMS (numero_telefono : string)
| ServicioReserva (prioridad : Z)
| ServicioSeguro (monto_cobertura : Q).

(** [Decorador(prestamo, argumento)] *)
Definition decorar (p : IPrestamo) (s : Servicio) : IPrestamo :=
  match s with
  | ServicioSMS numero_telefono => DecoradorNotificacionSMS p numero_telefono
  | ServicioReserva prioridad => DecoradorReservaPreferencial p prioridad
  | ServicioSeguro monto_cobertura => DecoradorSeguroExtravio p monto_cobertura
  end.

(** The chain obtained from a base loan by applying the decorators of the
    list one after the other; the last one ends up outermost. *)
Definition envolver (base : PrestamoBase) (servicios : list Servicio) : IPrestamo :=
  fold_left decorar servicios (Base base).

(** The deltas of the specification's table of wrappers. *)
Definition delta_duracion (s : Servicio) : Z :=
  match s with
  | ServicioSMS _ => 0
  | ServicioReserva _ => 7
  | ServicioSeguro _ => 0
  end.

Definition delta_costo (s : Servicio) : Q :=
  match s with
  | ServicioSMS _ => 5.00
  | ServicioReserva _ => 10.00
  | ServicioSeguro _ => 15.00
  end.

Definition suma_Z (xs : list Z) : Z := fold_right Z.add 0 xs.

(** Every [IPrestamo] is a base loan under a list of decorators. *)
Fixpoint servicios_de (p : IPrestamo) : list Servicio :=
  match p with
  | Base _ => []
  | DecoradorNotificacionSMS envuelto numero_telefono =>
      servicios_de envuelto ++ [ServicioSMS numero_telefono]
  | DecoradorReservaPreferencial envuelto prioridad =>
      servicios_de envuelto ++ [ServicioReserva prioridad]
  | DecoradorSeguroExtravio envuelto monto_cobertura =>
      servicios_de envuelto ++ [ServicioSeguro monto_cobertura]
  end.

(** ** Clocks *)

(** [r'] is [r] after some more readings. *)
Definition sigue (r r' : Reloj) : Prop :=
  lecturas r' = lecturas r /\ (tic r <= tic r')%nat.

(** ** Invoices *)

(** The fine items of an invoice. *)
Definition multas (f : Factura) : list ItemFactura :=
  filter (fun item => String.eqb (tipo item) "MULTA") (items f).

(** The item [agregar_multa] builds. *)
Definition item_de_multa (dias_retraso : Z) (e : IEstrategiaDeMulta) (multa : Q)
  : ItemFactura :=
  {| descripcion :=
       "Multa por " ++ str_int dias_retraso ++ " dias de retraso ("
         ++ IEstrategiaDeMulta.obtener_nombre_estrategia e ++ ")";
     cantidad := 1;
     valor_unitario := multa;
     tipo := "MULTA" |}.

(** The sample loan under SMS notification, priority reservation and loss
    insurance, and its invoice as [Factura.__init__] leaves it at time [t]. *)
Definition cadena_de_prueba (e : option IEstrategiaDeMulta) : IPrestamo :=
  envolver (prestamo_de_prueba e)
    [ServicioSMS "+57-300-1234567"; ServicioReserva 3; ServicioSeguro 150000.0].

Definition factura_de_prueba (e : option IEstrategiaDeMulta) (t : datetime)
  : Factura :=
  objeto_tras
    (Factura._generar_items
       {| numero_factura := "FACT-UCC-000001";
          prestamo := cadena_de_prueba e;
          prestamo_base := prestamo_de_prueba e;
          items := [];
          fecha_emision := t |}
       (reloj_detenido t)).

(** A payload with no key at all. *)
Definition kwargs_vacio : Kwargs :=
  {| kw_titulo := None; kw_autor := None; kw_isbn := None;
     kw_fecha_adquisicion := None; kw_numero_paginas := None;
     kw_editorial := None; kw_numero_edicion := None;
     kw_mes_publicacion := None; kw_formato := None; kw_tamaño_mb := None;
     kw_url_acceso := None |}.

(** The sample invoice after one and after two calls of [agregar_multa],
    24 days after a 14-day loan with the faculty policy. *)
Definition una_llamada :=
  Factura.agregar_multa
    (factura_de_prueba (Some MultaDocenteStrategy) (timedelta_days 24))
    (reloj_detenido (timedelta_days 24)).

Definition dos_llamadas :=
  Factura.agregar_multa (objeto_tras una_llamada) (reloj_tras una_llamada).

(** The same through the ledger: [crear_factura] with [incluir_multa] true,
    then [generar_factura_texto] with [incluir_multa] true on the invoice it
    returned. *)
Definition factura_creada :=
  GestorFacturacion.crear_factura
    (cadena_de_prueba (Some MultaDocenteStrategy))
    (prestamo_de_prueba (Some MultaDocenteStrategy)) true
    GestorFacturacion.__init__ (reloj_detenido (timedelta_days 24)).

Definition factura_impresa :=
  match resultado_de factura_creada with
  | Retorna f =>
      Some (f, objeto_tras
                 (Factura.generar_factura_texto true f (reloj_tras factura_creada)))
  | Lanza _ => None
  end.

(** ** Fines in hundredths *)

(** The age in days that [calcular_antiguedad_dias] finds at the next reading
    of the clock. *)
Definition antiguedad_en (r : Reloj) (rec : Recurso) : Z :=
  days (lecturas r (tic r) - fecha_adquisicion rec).

(** The fine of each policy, in hundredths, as a function of the age of the
    resource and the days late. *)
Definition centesimas (e : IEstrategiaDeMulta) (antiguedad_dias dias : Z) : Z :=
  if dias <=? 0 then 0
  else
    match e with
    | MultaEstudianteStrategy =>
        if 1825 <? antiguedad_dias then 100 * dias else 200 * dias
    | MultaDocenteStrategy => 100 * Z.max 0 (dias - 3)
    | MultaRecargadaStrategy => 300 * dias + 25 * dias * (dias - 1)
    | MultaPorAntiguedadRecursoStrategy =>
        (if antiguedad_dias <? 365 then 500
         else if antiguedad_dias <? 1825 then 250 else 100) * dias
    end.

(** ** Items of a new invoice *)

(** An invoice with another list of items. *)
Definition con_items (f : Factura) (xs : list ItemFactura) : Factura :=
  {| numero_factura := numero_factura f;
     prestamo := prestamo f;
     prestamo_base := prestamo_base f;
     items := xs;
     fecha_emision := fecha_emision f |}.

(** The item [_generar_items] appends for a decorator. *)
Definition item_de_servicio (s : Servicio) : ItemFactura :=
  match s with
  | ServicioSMS numero_telefono =>
      {| descripcion := "Servicio de Notificacion SMS a " ++ numero_telefono;
         cantidad := 1;
         valor_unitario := DecoradorNotificacionSMS.COSTO_SERVICIO_SMS;
         tipo := "SERVICIO" |}
  | ServicioReserva prioridad =>
      {| descripcion :=
           "Reserva Preferencial (Prioridad " ++ str_int prioridad ++ ")";
         cantidad := 1;
         valor_unitario :=
           DecoradorReservaPreferencial.COSTO_RESERVA_PREFERENCIAL;
         tipo := "SERVICIO" |}
  | ServicioSeguro monto_cobertura =>
      {| descripcion :=
           "Seguro contra Extravio (Cobertura $"
             ++ format_2f monto_cobertura ++ ")";
         cantidad := 1;
         valor_unitario := DecoradorSeguroExtravio.COSTO_SEGURO;
         tipo := "SERVICIO" |}
  end.

(** The item [_generar_items] starts with when the base loan has a cost. *)
Definition item_de_recurso (prestamo_base : PrestamoBase) : ItemFactura :=
  {| descripcion := "Prestamo Base del Recurso";
     cantidad := 1;
     valor_unitario := PrestamoBase.obtener_costo_base prestamo_base;
     tipo := "RECURSO" |}.

(** ** Reading an invoice number back *)

(** [int(s)] for a string of decimal digits with an optional sign. *)
Definition leer_entero (s : string) : option Z :=
  option_map Z.of_int (NilZero.int_of_string s).

(** [s[k:]] *)
Fixpoint desde (k : nat) (s : string) : string :=
  match k, s with
  | O, _ => s
  | S k', String _ s' => desde k' s'
  | S _, EmptyString => EmptyString
  end.

(** The counter an invoice number was made from: [int(numero[9:])]. *)
Definition contador_de_numero (numero : string) : option Z :=
  leer_entero (desde 9 numero).

(** [k] leading zeros before the digits [d]. *)
Fixpoint ceros_uint (k : nat) (d : Decimal.uint) : Decimal.uint :=
  match k with
  | O => d
  | S k' => Decimal.D0 (ceros_uint k' d)
  end.

(** ** Descriptions *)

(** What a decorator appends to the description of the loan it wraps. *)
Definition fragmento (s : Servicio) : string :=
  match s with
  | ServicioSMS numero_telefono =>
      " " ++ "+ Notificación SMS al " ++ numero_telefono
  | ServicioReserva prioridad =>
      " " ++ "+ Reserva Preferencial (Prioridad " ++ str_int prioridad ++ ")"
  | ServicioSeguro monto_cobertura =>
      " " ++ "+ Seguro contra Extravío (Cobertura: $"
        ++ format_2f monto_cobertura ++ ")"
  end.

(** * Properties *)

(** ** Rounding and sums *)

Lemma redondeo_par_entero (q : Q) (z : Z) :
  q == inject_Z z -> redondeo_par q = z.
Proof.
  unfold Qeq, redondeo_par; simpl.
  rewrite Z.mul_1_r; intros ->.
  rewrite Z.div_mul, Z.mod_mul by discriminate.
  reflexivity.
Qed.

Lemma round_2_centesimas (q : Q) (z : Z) :
  (q * 100 == inject_Z z)%Q -> (round q 2 == q)%Q.
Proof.
  intros H. unfold round.
  change (inject_Z (10 ^ Z.of_nat 2)) with 100%Q.
  rewrite (redondeo_par_entero _ _ H), <- H.
  field.
Qed.

Lemma range_1_S (n : nat) :
  range 1 (Z.of_nat (S n) + 1) = range 1 (Z.of_nat n + 1) ++ [Z.of_nat (S n)].
Proof.
  unfold range.
  replace (Z.to_nat (Z.of_nat (S n) + 1 - 1)) with (S n) by lia.
  replace (Z.to_nat (Z.of_nat n + 1 - 1)) with n by lia.
  rewrite seq_S, map_app. cbn [map Nat.add].
  f_equal. f_equal. lia.
Qed.

Lemma inject_Z_pred (a : Z) : (inject_Z (a - 1) == inject_Z a - 1)%Q.
Proof.
  unfold Z.sub, Qminus. rewrite inject_Z_plus, inject_Z_opp. reflexivity.
Qed.

Lemma suma_recargada (n : nat) :
  (fold_left MultaRecargadaStrategy.paso (range 1 (Z.of_nat n + 1)) 0.0
   == forma_cerrada_recargada (Z.of_nat n))%Q.
Proof.
  induction n as [|n IH].
  - reflexivity.
  - rewrite range_1_S, fold_left_app. cbn [fold_left].
    unfold MultaRecargadaStrategy.paso at 1. rewrite IH.
    unfold forma_cerrada_recargada, MultaRecargadaStrategy.TARIFA_INICIAL,
      MultaRecargadaStrategy.INCREMENTO_DIARIO.
    replace (Z.of_nat (S n) - 1) with (Z.of_nat n) by lia.
    replace (Z.of_nat (S n)) with (Z.of_nat n + 1) by lia.
    rewrite inject_Z_pred, inject_Z_plus.
    change (inject_Z 1) with 1%Q.
    field.
Qed.

Lemma centesimas_recargada (dias : Z) :
  (forma_cerrada_recargada dias * 100
   == inject_Z (300 * dias + 25 * dias * (dias - 1)))%Q.
Proof.
  unfold forma_cerrada_recargada.
  rewrite inject_Z_plus, !inject_Z_mult, inject_Z_pred.
  change (inject_Z 300) with 300%Q. change (inject_Z 25) with 25%Q.
  field.
Qed.

(** ** The progressive policy *)



(** ** The fine policies *)

(** Case analysis on the class of the policy [e], down to the body of its
    [calcular_multa]. *)
Ltac segun_politica e :=
  destruct e; cbn [IEstrategiaDeMulta.calcular_multa];
  [ unfold MultaEstudianteStrategy.calcular_multa
  | unfold MultaDocenteStrategy.calcular_multa
  | unfold MultaRecargadaStrategy.calcular_multa
  | unfold MultaPorAntiguedadRecursoStrategy.calcular_multa ].

Lemma politica_sin_retraso (Obj : Type) (e : IEstrategiaDeMulta) (dias : Z)
    (costo : Q) (rec : Recurso) (self : Obj) (r : Reloj) :
  dias <= 0 ->
  IEstrategiaDeMulta.calcular_multa e dias costo rec self r
  = (Retorna 0.0%Q, self, r).
Proof.
  intros H. apply Z.leb_le in H.
  segun_politica e;
    rewrite H; reflexivity.
Qed.

Lemma politica_retorna (Obj : Type) (e : IEstrategiaDeMulta) (dias : Z)
    (costo : Q) (rec : Recurso) (self : Obj) (r : Reloj) :
  exists (multa : Q) (r' : Reloj),
    IEstrategiaDeMulta.calcular_multa e dias costo rec self r
    = (Retorna multa, self, r').
Proof.
  segun_politica e;
    destruct (dias <=? 0); try (do 2 eexists; reflexivity).
  destruct (Z.max 0 (dias - MultaDocenteStrategy.DIAS_GRACIA) =? 0);
    do 2 eexists; reflexivity.
Qed.

(** C8: each of the four policies returns exactly 0.0 when [dias_retraso <= 0],
    whatever the resource and the cost; and a loan with a policy bound whose
    days late are 0 (or less) has a fine of exactly 0.0. *)
Theorem C8_sin_retraso_multa_cero :
  (forall (Obj : Type) (e : IEstrategiaDeMulta) (dias : Z) (costo : Q)
          (rec : Recurso) (self : Obj) (r : Reloj),
      dias <= 0 ->
      IEstrategiaDeMulta.calcular_multa e dias costo rec self r
      = (Retorna 0.0%Q, self, r))
  /\
  (forall (Obj : Type) (p : PrestamoBase) (e : IEstrategiaDeMulta)
          (self : Obj) (r r' : Reloj) (dias : Z),
      estrategia_multa p = Some e ->
      PrestamoBase.calcular_dias_retraso p self r = (Retorna dias, self, r') ->
      dias <= 0 ->
      PrestamoBase.calcular_multa p self r = (Retorna 0.0%Q, self, r')).
Proof.
  split.
  - intros; now apply politica_sin_retraso.
  - intros Obj p e self r r' dias He Hd Hle.
    unfold PrestamoBase.calcular_multa, bind. rewrite He, Hd.
    apply Z.leb_le in Hle. rewrite Hle. reflexivity.
Qed.

(** C8 at a negative number of days late, and at a loan read on its due
    date. *)
Lemma C8_sin_retraso_multa_cero_witness :
  (-2 <= 0
   /\ IEstrategiaDeMulta.calcular_multa MultaEstudianteStrategy (-2) 30.0
        recurso_de_prueba tt (reloj_detenido 0)
      = (Retorna 0.0%Q, tt, reloj_detenido 0))
  /\
  PrestamoBase.calcular_multa (prestamo_de_prueba (Some MultaRecargadaStrategy))
    tt (reloj_detenido (timedelta_days 14))
  = (Retorna 0.0%Q, tt, avanzar (reloj_detenido (timedelta_days 14))).
Proof.
  split.
  - split; [lia|].
    apply (proj1 C8_sin_retraso_multa_cero unit MultaEstudianteStrategy (-2)
             30.0%Q recurso_de_prueba tt (reloj_detenido 0)).
    lia.
  - apply (proj2 C8_sin_retraso_multa_cero unit
             (prestamo_de_prueba (Some MultaRecargadaStrategy))
             MultaRecargadaStrategy tt
             (reloj_detenido (timedelta_days 14))
             (avanzar (reloj_detenido (timedelta_days 14))) 0).
    + reflexivity.
    + reflexivity.
    + lia.
Defined.

(** C9: none of the four policies looks at its accumulated-cost argument:
    two calls that differ only in the cost give the same result; the
    resource matters only through its acquisition date. *)
Theorem C9_multa_independiente_del_costo :
  (forall (Obj : Type) (e : IEstrategiaDeMulta) (dias : Z) (c1 c2 : Q)
          (rec : Recurso) (self : Obj) (r : Reloj),
      IEstrategiaDeMulta.calcular_multa e dias c1 rec self r
      = IEstrategiaDeMulta.calcular_multa e dias c2 rec self r)
  /\
  (forall (Obj : Type) (e : IEstrategiaDeMulta) (dias : Z) (c1 c2 : Q)
          (rec1 rec2 : Recurso) (self : Obj) (r : Reloj),
      fecha_adquisicion rec1 = fecha_adquisicion rec2 ->
      IEstrategiaDeMulta.calcular_multa e dias c1 rec1 self r
      = IEstrategiaDeMulta.calcular_multa e dias c2 rec2 self r).
Proof.
  split.
  - intros Obj e dias c1 c2 rec self r. destruct e; reflexivity.
  - intros Obj e dias c1 c2 rec1 rec2 self r H.
    segun_politica e; unfold Recurso.calcular_antiguedad_dias;
      rewrite ?H; reflexivity.
Qed.

(** C9 at two copies of a resource that differ in availability only. *)
Lemma C9_multa_independiente_del_costo_witness :
  fecha_adquisicion recurso_de_prueba
  = fecha_adquisicion (Recurso.cambiar_disponibilidad recurso_de_prueba false)
  /\ IEstrategiaDeMulta.calcular_multa MultaEstudianteStrategy 10 0.0
       recurso_de_prueba tt (reloj_detenido (timedelta_days 2000))
     = IEstrategiaDeMulta.calcular_multa MultaEstudianteStrategy 10 30.0
         (Recurso.cambiar_disponibilidad recurso_de_prueba false) tt
         (reloj_detenido (timedelta_days 2000)).
Proof.
  split; [reflexivity|].
  apply (proj2 C9_multa_independiente_del_costo unit MultaEstudianteStrategy
           10 0.0%Q 30.0%Q recurso_de_prueba
           (Recurso.cambiar_disponibilidad recurso_de_prueba false) tt
           (reloj_detenido (timedelta_days 2000))).
  reflexivity.
Defined.

(** ** The base loan and its policy *)

(** What [calcular_dias_retraso] does with the clock: one reading when the
    loan is not overdue, two when it is. *)
Lemma dias_retraso_ejecuta (Obj : Type) (p : PrestamoBase) (self : Obj)
    (r : Reloj) :
  PrestamoBase.calcular_dias_retraso p self r
  = if PrestamoBase.obtener_fecha_devolucion p <? lecturas r (tic r)
    then (Retorna (days (lecturas r (S (tic r))
                         - PrestamoBase.obtener_fecha_devolucion p)),
          self, avanzar (avanzar r))
    else (Retorna 0, self, avanzar r).
Proof.
  unfold PrestamoBase.calcular_dias_retraso, bind, datetime_now, ret.
  destruct (PrestamoBase.obtener_fecha_devolucion p <? lecturas r (tic r));
    reflexivity.
Qed.

Lemma dias_retraso_retorna (Obj : Type) (p : PrestamoBase) (self : Obj)
    (r : Reloj) :
  exists (dias : Z) (r' : Reloj),
    PrestamoBase.calcular_dias_retraso p self r = (Retorna dias, self, r').
Proof.
  rewrite dias_retraso_ejecuta.
  destruct (PrestamoBase.obtener_fecha_devolucion p <? lecturas r (tic r));
    do 2 eexists; reflexivity.
Qed.

Lemma multa_delega (Obj : Type) (p : PrestamoBase) (e : IEstrategiaDeMulta)
    (self : Obj) (r : Reloj) :
  estrategia_multa p = Some e ->
  PrestamoBase.calcular_multa p self r
  = (dias_retraso <- PrestamoBase.calcular_dias_retraso p ;;
     IEstrategiaDeMulta.calcular_multa e dias_retraso
       (PrestamoBase.obtener_costo_base p) (recurso p)) self r.
Proof.
  intros He. unfold PrestamoBase.calcular_multa. rewrite He.
  unfold bind.
  destruct (PrestamoBase.calcular_dias_retraso p self r) as [[[d|ex] s] r1];
    [|reflexivity].
  destruct (d <=? 0) eqn:Hd; [|reflexivity].
  apply Z.leb_le in Hd. now rewrite politica_sin_retraso.
Qed.

Lemma multa_retorna (Obj : Type) (p : PrestamoBase) (e : IEstrategiaDeMulta)
    (self : Obj) (r : Reloj) :
  estrategia_multa p = Some e ->
  exists (multa : Q) (r' : Reloj),
    PrestamoBase.calcular_multa p self r = (Retorna multa, self, r').
Proof.
  intros He. rewrite (multa_delega Obj p e self r He).
  destruct (dias_retraso_retorna Obj p self r) as (d & r1 & Hd).
  unfold bind. rewrite Hd. apply politica_retorna.
Qed.

(** C5: [calcular_multa] of a base loan raises exactly when no policy is
    bound, and what it raises then is the [ValueError] of the missing policy;
    with a policy bound it returns what the policy returns for the days late
    observed, the cost of the base loan and its resource; and right after
    [establecer_estrategia_multa] binds a policy the call returns a value. *)
Theorem C5_multa_requiere_estrategia :
  forall (Obj : Type) (p : PrestamoBase) (self : Obj) (r : Reloj),
    ((exists ex : Excepcion,
         resultado_de (PrestamoBase.calcular_multa p self r) = Lanza ex)
     <-> estrategia_multa p = None)
    /\
    (estrategia_multa p = None ->
     exists mensaje : string,
       PrestamoBase.calcular_multa p self r
       = (Lanza (ValueError mensaje), self, r))
    /\
    (forall e : IEstrategiaDeMulta,
        estrategia_multa p = Some e ->
        PrestamoBase.calcular_multa p self r
        = (dias_retraso <- PrestamoBase.calcular_dias_retraso p ;;
           IEstrategiaDeMulta.calcular_multa e dias_retraso
             (PrestamoBase.obtener_costo_base p) (recurso p)) self r
        /\ exists (multa : Q) (r' : Reloj),
             PrestamoBase.calcular_multa p self r = (Retorna multa, self, r'))
    /\
    (forall e : IEstrategiaDeMulta,
        exists (multa : Q) (r' : Reloj),
          PrestamoBase.calcular_multa
            (PrestamoBase.establecer_estrategia_multa p (Some e)) self r
          = (Retorna multa, self, r')).
Proof.
  intros Obj p self r.
  repeat split.
  - intros [ex Hex]. destruct (estrategia_multa p) as [e|] eqn:He; [|reflexivity].
    destruct (multa_retorna Obj p e self r He) as (multa & r' & H).
    rewrite H in Hex. discriminate.
  - intros He. unfold PrestamoBase.calcular_multa. rewrite He.
    eexists; reflexivity.
  - intros He. unfold PrestamoBase.calcular_multa. rewrite He.
    eexists; reflexivity.
  - now apply multa_delega.
  - now apply (multa_retorna Obj p e).
  - intros e. now apply (multa_retorna Obj _ e).
Qed.

(** C5 at the sample loan, without a policy and with the faculty policy. *)
Lemma C5_multa_requiere_estrategia_witness :
  (estrategia_multa (prestamo_de_prueba None) = None
   /\ exists mensaje : string,
        PrestamoBase.calcular_multa (prestamo_de_prueba None) tt
          (reloj_detenido (timedelta_days 24))
        = (Lanza (ValueError mensaje), tt, reloj_detenido (timedelta_days 24)))
  /\
  (estrategia_multa (prestamo_de_prueba (Some MultaDocenteStrategy))
   = Some MultaDocenteStrategy
   /\ exists (multa : Q) (r' : Reloj),
        PrestamoBase.calcular_multa
          (prestamo_de_prueba (Some MultaDocenteStrategy)) tt
          (reloj_detenido (timedelta_days 24))
        = (Retorna multa, tt, r')).
Proof.
  split; (split; [reflexivity|]).
  - apply (proj1 (proj2 (C5_multa_requiere_estrategia unit
             (prestamo_de_prueba None) tt (reloj_detenido (timedelta_days 24))))).
    reflexivity.
  - apply (proj1 (proj2 (proj2 (C5_multa_requiere_estrategia unit
             (prestamo_de_prueba (Some MultaDocenteStrategy)) tt
             (reloj_detenido (timedelta_days 24)))))
             MultaDocenteStrategy).
    reflexivity.
Defined.

(** ** The age-tiered policy *)

(** The rate as the code chooses it: below 365 days of age 5.0, from 365 up
    to 1824 days 2.5, from 1825 days (five years) on 1.0. *)
Lemma tarifa_por_tramos (antiguedad_dias : Z) :
  MultaPorAntiguedadRecursoStrategy.tarifa_segun_antiguedad antiguedad_dias
  = if antiguedad_dias <? 365
    then MultaPorAntiguedadRecursoStrategy.TARIFA_RECURSO_NUEVO
    else if antiguedad_dias <? 1825
         then MultaPorAntiguedadRecursoStrategy.TARIFA_RECURSO_MEDIO
         else MultaPorAntiguedadRecursoStrategy.TARIFA_RECURSO_ANTIGUO.
Proof.
  unfold MultaPorAntiguedadRecursoStrategy.tarifa_segun_antiguedad,
    Qlt_bool, Qle_bool.
  cbn [Qnum Qden Qdiv Qmult Qinv inject_Z].
  change (1 * Z.pos (1 * 365)) with 365.
  change (5 * Z.pos (1 * 365)) with 1825.
  rewrite !Z.mul_1_r.
  destruct (Z.leb_spec 365 antiguedad_dias), (Z.ltb_spec antiguedad_dias 365),
    (Z.leb_spec 1825 antiguedad_dias), (Z.ltb_spec antiguedad_dias 1825);
    try reflexivity; lia.
Qed.

(** What the policy returns for a late loan: the rounded product of the rate
    of the resource's age and the days late. *)
Lemma multa_por_antiguedad (Obj : Type) (dias : Z) (costo : Q) (rec : Recurso)
    (self : Obj) (r : Reloj) :
  0 < dias ->
  MultaPorAntiguedadRecursoStrategy.calcular_multa dias costo rec self r
  = (Retorna
       (round (MultaPorAntiguedadRecursoStrategy.tarifa_segun_antiguedad
                 (days (lecturas r (tic r) - fecha_adquisicion rec))
               * inject_Z dias) 2),
     self, avanzar r).
Proof.
  intros H. unfold MultaPorAntiguedadRecursoStrategy.calcular_multa.
  destruct (dias <=? 0) eqn:E; [lia|]. reflexivity.
Qed.

(** C6, at the boundary: a resource that is exactly five years old
    (1825 days, 1825 / 365 = 5.0) and one day late is charged the rate of
    old resources, 1.00, not the 2.50 of resources aged 1 to 5 years; half a
    year old and ten days late, it is charged 50.00. *)
Theorem C6_antiguedad_cinco_anios_exactos :
  (exists multa : Q,
      MultaPorAntiguedadRecursoStrategy.calcular_multa 1 0.0 recurso_de_prueba tt
        (reloj_detenido (timedelta_days 1825))
      = (Retorna multa, tt, avanzar (reloj_detenido (timedelta_days 1825)))
      /\ Recurso.calcular_antiguedad_dias recurso_de_prueba tt
           (reloj_detenido (timedelta_days 1825))
         = (Retorna 1825, tt, avanzar (reloj_detenido (timedelta_days 1825)))
      /\ (multa == 1.00)%Q
      /\ ~ (multa == 2.50)%Q)
  /\
  (exists multa : Q,
      MultaPorAntiguedadRecursoStrategy.calcular_multa 10 0.0 recurso_de_prueba tt
        (reloj_detenido (timedelta_days 182))
      = (Retorna multa, tt, avanzar (reloj_detenido (timedelta_days 182)))
      /\ (multa == 50.00)%Q).
Proof.
  split.
  - eexists. split; [|split; [|split]].
    + rewrite multa_por_antiguedad by lia. reflexivity.
    + reflexivity.
    + reflexivity.
    + intros H. vm_compute in H. discriminate.
  - eexists. split.
    + rewrite multa_por_antiguedad by lia. reflexivity.
    + reflexivity.
Qed.

(** ** Chains of decorators *)

Lemma sum_desde (xs : list Q) (a : Q) :
  (fold_left Qplus xs a == a + sum xs)%Q.
Proof.
  unfold sum. revert a.
  induction xs as [|x xs IH]; intros a; cbn [fold_left].
  - ring.
  - rewrite (IH (a + x)%Q), (IH (0 + x)%Q). ring.
Qed.

Lemma sum_cons (x : Q) (xs : list Q) : (sum (x :: xs) == x + sum xs)%Q.
Proof.
  unfold sum at 1. cbn [fold_left]. rewrite sum_desde. ring.
Qed.

Lemma sum_app (xs ys : list Q) : (sum (xs ++ ys) == sum xs + sum ys)%Q.
Proof.
  induction xs as [|x xs IH]; cbn [app].
  - unfold sum at 2. cbn [fold_left]. ring.
  - rewrite !sum_cons, IH. ring.
Qed.

Lemma sum_Permutation (xs ys : list Q) :
  Permutation xs ys -> (sum xs == sum ys)%Q.
Proof.
  induction 1 as [|x xs ys _ IH|x y xs|xs ys zs _ IH1 _ IH2].
  - reflexivity.
  - rewrite !sum_cons, IH. reflexivity.
  - rewrite !sum_cons. ring.
  - now rewrite IH1.
Qed.

Lemma suma_Z_Permutation (xs ys : list Z) :
  Permutation xs ys -> suma_Z xs = suma_Z ys.
Proof.
  induction 1 as [|x xs ys _ IH|x y xs|xs ys zs _ IH1 _ IH2];
    unfold suma_Z in *; cbn [fold_right] in *; lia.
Qed.

Lemma duracion_decorada (servicios : list Servicio) (p : IPrestamo) :
  IPrestamo.obtener_duracion_dias (fold_left decorar servicios p)
  = IPrestamo.obtener_duracion_dias p
    + suma_Z (map delta_duracion servicios).
Proof.
  revert p. induction servicios as [|s servicios IH]; intros p;
    unfold suma_Z; cbn [fold_left map fold_right].
  - lia.
  - rewrite IH. unfold suma_Z.
    destruct s; cbn [decorar IPrestamo.obtener_duracion_dias delta_duracion];
      unfold DecoradorReservaPreferencial.DIAS_ADICIONALES; lia.
Qed.

Lemma costo_decorado (servicios : list Servicio) (p : IPrestamo) :
  (IPrestamo.obtener_costo_base (fold_left decorar servicios p)
   == IPrestamo.obtener_costo_base p + sum (map delta_costo servicios))%Q.
Proof.
  revert p. induction servicios as [|s servicios IH]; intros p;
    cbn [fold_left map].
  - unfold sum. cbn [fold_left]. ring.
  - rewrite IH, sum_cons.
    destruct s; cbn [decorar IPrestamo.obtener_costo_base delta_costo];
      unfold DecoradorNotificacionSMS.COSTO_SERVICIO_SMS,
        DecoradorReservaPreferencial.COSTO_RESERVA_PREFERENCIAL,
        DecoradorSeguroExtravio.COSTO_SEGURO; ring.
Qed.

Lemma envolver_servicios_de (p : IPrestamo) :
  envolver (IPrestamo.prestamo_mas_interno p) (servicios_de p) = p.
Proof.
  unfold envolver.
  induction p as [b|p IH tel|p IH prio|p IH monto];
    cbn [servicios_de IPrestamo.prestamo_mas_interno];
    [reflexivity| | |]; rewrite fold_left_app, IH; reflexivity.
Qed.

(** C4: for a base loan (whose own cost is the 0.0 its constructor sets) and
    any list of decorators, the duration of the chain is the base duration
    of the resource plus the duration deltas and its cost is the sum of the
    cost deltas; applying the same decorators in another order changes
    neither; a 14-day loan under SMS notification, priority reservation and
    loss insurance, in any order, lasts 21 days and costs 30.00. *)
Theorem C4_costo_y_duracion_conmutan :
  forall (base : PrestamoBase) (servicios servicios' : list Servicio),
    (costo_base base == 0)%Q ->
    Permutation servicios servicios' ->
    IPrestamo.obtener_duracion_dias (envolver base servicios)
    = Recurso.obtener_duracion_prestamo_base (recurso base)
      + suma_Z (map delta_duracion servicios)
    /\ (IPrestamo.obtener_costo_base (envolver base servicios)
        == sum (map delta_costo servicios))%Q
    /\ IPrestamo.obtener_duracion_dias (envolver base servicios')
       = IPrestamo.obtener_duracion_dias (envolver base servicios)
    /\ (IPrestamo.obtener_costo_base (envolver base servicios')
        == IPrestamo.obtener_costo_base (envolver base servicios))%Q
    /\ (forall (numero_telefono : string) (prioridad : Z) (monto_cobertura : Q),
           Recurso.obtener_duracion_prestamo_base (recurso base) = 14 ->
           servicios = [ServicioSMS numero_telefono; ServicioReserva prioridad;
                        ServicioSeguro monto_cobertura] ->
           IPrestamo.obtener_duracion_dias (envolver base servicios') = 21
           /\ (IPrestamo.obtener_costo_base (envolver base servicios')
               == 30.00)%Q).
Proof.
  intros base servicios servicios' Hcosto Hperm.
  assert (Hdur : forall ss,
    IPrestamo.obtener_duracion_dias (envolver base ss)
    = Recurso.obtener_duracion_prestamo_base (recurso base)
      + suma_Z (map delta_duracion ss)).
  { intros ss. unfold envolver. rewrite duracion_decorada. reflexivity. }
  assert (Hcos : forall ss,
    (IPrestamo.obtener_costo_base (envolver base ss)
     == sum (map delta_costo ss))%Q).
  { intros ss. unfold envolver. rewrite costo_decorado.
    cbn [IPrestamo.obtener_costo_base]. unfold PrestamoBase.obtener_costo_base.
    rewrite Hcosto. ring. }
  assert (Hd : suma_Z (map delta_duracion servicios')
               = suma_Z (map delta_duracion servicios)).
  { apply suma_Z_Permutation, Permutation_map, Permutation_sym, Hperm. }
  assert (Hc : (sum (map delta_costo servicios')
                == sum (map delta_costo servicios))%Q).
  { apply sum_Permutation, Permutation_map, Permutation_sym, Hperm. }
  repeat split.
  - apply Hdur.
  - apply Hcos.
  - rewrite !Hdur, Hd. reflexivity.
  - rewrite !Hcos, Hc. reflexivity.
  - rewrite Hdur, Hd. subst servicios.
    match goal with H : _ = 14 |- _ => rewrite H end. reflexivity.
  - rewrite Hcos, Hc. subst servicios. reflexivity.
Qed.

(** C4 at the sample loan with the first two decorators swapped. *)
Lemma C4_costo_y_duracion_conmutan_witness :
  (costo_base (prestamo_de_prueba (Some MultaDocenteStrategy)) == 0)%Q
  /\ Permutation
       [ServicioSMS "+57-300-1234567"; ServicioReserva 3; ServicioSeguro 150000.0]
       [ServicioReserva 3; ServicioSMS "+57-300-1234567"; ServicioSeguro 150000.0]
  /\ IPrestamo.obtener_duracion_dias
       (envolver (prestamo_de_prueba (Some MultaDocenteStrategy))
          [ServicioReserva 3; ServicioSMS "+57-300-1234567";
           ServicioSeguro 150000.0])
     = IPrestamo.obtener_duracion_dias
         (envolver (prestamo_de_prueba (Some MultaDocenteStrategy))
            [ServicioSMS "+57-300-1234567"; ServicioReserva 3;
             ServicioSeguro 150000.0]).
Proof.
  split; [reflexivity|]. split; [apply perm_swap|].
  apply (C4_costo_y_duracion_conmutan
           (prestamo_de_prueba (Some MultaDocenteStrategy))
           [ServicioSMS "+57-300-1234567"; ServicioReserva 3;
            ServicioSeguro 150000.0]
           [ServicioReserva 3; ServicioSMS "+57-300-1234567";
            ServicioSeguro 150000.0]).
  - reflexivity.
  - apply perm_swap.
Defined.

(** Whatever the decorators, the due date of a chain is the one of its
    innermost loan. *)
Lemma fecha_devolucion_de_la_base (p : IPrestamo) :
  IPrestamo.obtener_fecha_devolucion p
  = PrestamoBase.obtener_fecha_devolucion (IPrestamo.prestamo_mas_interno p).
Proof.
  induction p; cbn [IPrestamo.obtener_fecha_devolucion
                      IPrestamo.prestamo_mas_interno]; auto.
Qed.

(** C1, at a priority reservation around a base loan: the chain lasts seven
    days more than the base loan, yet its due date is still the loan start
    plus the base duration, which is not the loan start plus the duration of
    the chain. *)
Theorem C1_reserva_no_mueve_fecha_devolucion :
  forall (p : PrestamoBase) (prioridad : Z),
    let cadena := DecoradorReservaPreferencial (Base p) prioridad in
    IPrestamo.obtener_duracion_dias cadena
    = PrestamoBase.obtener_duracion_dias p + 7
    /\ IPrestamo.obtener_fecha_devolucion cadena
       = fecha_prestamo p + timedelta_days (PrestamoBase.obtener_duracion_dias p)
    /\ IPrestamo.obtener_fecha_devolucion cadena
       <> fecha_prestamo p
          + timedelta_days (IPrestamo.obtener_duracion_dias cadena).
Proof.
  intros p prioridad cadena. subst cadena.
  cbn [IPrestamo.obtener_duracion_dias IPrestamo.obtener_fecha_devolucion].
  unfold PrestamoBase.obtener_fecha_devolucion, timedelta_days,
    DecoradorReservaPreferencial.DIAS_ADICIONALES, MICROSEGUNDOS_POR_DIA.
  repeat split; lia.
Qed.

(** ** Invoices *)

Lemma sigue_refl (r : Reloj) : sigue r r.
Proof. split; [reflexivity | lia]. Qed.

Lemma sigue_trans (r1 r2 r3 : Reloj) : sigue r1 r2 -> sigue r2 r3 -> sigue r1 r3.
Proof. intros [H1 H2] [H3 H4]. split; [congruence | lia]. Qed.

Lemma sigue_avanzar (r : Reloj) : sigue r (avanzar r).
Proof. split; [reflexivity | cbn; lia]. Qed.

Create HintDb reloj.
#[local] Hint Resolve sigue_refl sigue_avanzar : reloj.

Lemma dias_retraso_sigue (Obj : Type) (p : PrestamoBase) (self : Obj)
    (r : Reloj) :
  sigue r (reloj_tras (PrestamoBase.calcular_dias_retraso p self r)).
Proof.
  rewrite dias_retraso_ejecuta.
  destruct (PrestamoBase.obtener_fecha_devolucion p <? lecturas r (tic r));
    cbn [reloj_tras snd]; eauto using sigue_trans with reloj.
Qed.

Lemma politica_sigue (Obj : Type) (e : IEstrategiaDeMulta) (dias : Z)
    (costo : Q) (rec : Recurso) (self : Obj) (r : Reloj) :
  sigue r (reloj_tras (IEstrategiaDeMulta.calcular_multa e dias costo rec self r)).
Proof.
  segun_politica e;
    destruct (dias <=? 0); cbn [reloj_tras snd]; auto with reloj.
  destruct (Z.max 0 (dias - MultaDocenteStrategy.DIAS_GRACIA) =? 0);
    cbn [reloj_tras snd]; auto with reloj.
Qed.

(** With a monotone clock, a loan seen overdue stays overdue at every later
    reading, by at least as many days. *)
Lemma dias_retraso_crece (Obj Obj' : Type) (p : PrestamoBase)
    (self : Obj) (self' : Obj') (r r1 r' : Reloj) (dias : Z) :
  monotono r -> sigue r r1 ->
  PrestamoBase.calcular_dias_retraso p self r = (Retorna dias, self, r') ->
  0 < dias ->
  exists (dias1 : Z) (r1' : Reloj),
    PrestamoBase.calcular_dias_retraso p self' r1 = (Retorna dias1, self', r1')
    /\ dias <= dias1.
Proof.
  intros Hmono [Hlec Htic] Hrun Hpos.
  rewrite dias_retraso_ejecuta in Hrun |- *.
  destruct (Z.ltb_spec (PrestamoBase.obtener_fecha_devolucion p)
              (lecturas r (tic r))) as [Hlt|Hge];
    [|inversion Hrun; lia].
  inversion Hrun as [[Hd Hr']]. clear Hrun.
  rewrite Hlec.
  pose proof (Hmono (tic r) (tic r1) Htic) as H0.
  pose proof (Hmono (S (tic r)) (S (tic r1)) ltac:(lia)) as H1.
  destruct (Z.ltb_spec (PrestamoBase.obtener_fecha_devolucion p)
              (lecturas r (tic r1))) as [_|Hge]; [|lia].
  do 2 eexists; split; [reflexivity|].
  unfold days. apply Z.div_le_mono; [reflexivity | lia].
Qed.

Lemma multa_sigue (Obj : Type) (p : PrestamoBase) (self : Obj) (r : Reloj) :
  sigue r (reloj_tras (PrestamoBase.calcular_multa p self r)).
Proof.
  unfold PrestamoBase.calcular_multa.
  destruct (estrategia_multa p) as [e|]; [|apply sigue_refl].
  unfold bind.
  pose proof (dias_retraso_sigue Obj p self r) as H1.
  destruct (PrestamoBase.calcular_dias_retraso p self r) as [[[d|ex] s] r1];
    cbn [reloj_tras snd] in H1 |- *; [|exact H1].
  destruct (d <=? 0); cbn [reloj_tras snd]; [exact H1|].
  eapply sigue_trans; [exact H1 | apply politica_sigue].
Qed.

(** One call of [agregar_multa] on an overdue loan with a policy bound:
    it returns the fine and leaves the invoice with one more item. *)
Lemma agregar_multa_con_retraso (f : Factura) (e : IEstrategiaDeMulta)
    (r r1 : Reloj) (dias : Z) :
  estrategia_multa (prestamo_base f) = Some e ->
  PrestamoBase.calcular_dias_retraso (prestamo_base f) f r = (Retorna dias, f, r1) ->
  0 < dias ->
  exists (multa : Q) (f' : Factura) (r2 : Reloj),
    Factura.agregar_multa f r = (Retorna multa, f', r2)
    /\ PrestamoBase.calcular_multa (prestamo_base f) f r1 = (Retorna multa, f, r2)
    /\ items f' = items f ++ [item_de_multa dias e multa]
    /\ prestamo_base f' = prestamo_base f
    /\ prestamo f' = prestamo f
    /\ sigue r r2.
Proof.
  intros He Hrun Hpos.
  destruct (multa_retorna Factura (prestamo_base f) e f r1 He) as (m & r2 & Hm).
  exists m. eexists. exists r2.
  unfold Factura.agregar_multa, bind, leer.
  rewrite Hrun. apply Z.ltb_lt in Hpos. rewrite Hpos, Hm, He.
  cbn [Factura.nombre_de_estrategia ret Factura.items_append mutar].
  do 5 (split; [reflexivity|]).
  eapply sigue_trans.
  - pose proof (dias_retraso_sigue Factura (prestamo_base f) f r) as H.
    rewrite Hrun in H. exact H.
  - pose proof (multa_sigue Factura (prestamo_base f) f r1) as H.
    rewrite Hm in H. exact H.
Qed.

Lemma subtotal_con_un_item (xs : list ItemFactura) (item : ItemFactura) :
  cantidad item = 1 ->
  (sum (map ItemFactura.subtotal (xs ++ [item]))
   == sum (map ItemFactura.subtotal xs) + valor_unitario item)%Q.
Proof.
  intros H. rewrite map_app, sum_app. cbn [map]. rewrite sum_cons.
  unfold ItemFactura.subtotal at 2. rewrite H.
  unfold sum at 2. cbn [fold_left].
  change (inject_Z 1) with 1%Q. ring.
Qed.

Lemma items_append_ejecuta (item : ItemFactura) (f : Factura) (r : Reloj) :
  exists f' : Factura,
    Factura.items_append item f r = (Retorna tt, f', r)
    /\ items f' = items f ++ [item]
    /\ prestamo_base f' = prestamo_base f
    /\ prestamo f' = prestamo f.
Proof. eexists. repeat split. Qed.

(** Runs the [items_append] at the head of the goal on invoice [f]. *)
Ltac tras_items_append f r :=
  match goal with
  | |- context [Factura.items_append ?item f r] =>
      let f1 := fresh "f1" in
      destruct (items_append_ejecuta item f r) as (f1 & -> & ?Hitems & ?Hpb & _)
  end.

(** A list that grew by one item that is not a fine has the same fines. *)
Lemma multas_con_servicio (f f1 : Factura) (item : ItemFactura) :
  items f1 = items f ++ [item] ->
  String.eqb (tipo item) "MULTA" = false ->
  multas f1 = multas f.
Proof.
  intros Hitems Htipo. unfold multas.
  rewrite Hitems, filter_app. cbn [filter]. rewrite Htipo. apply app_nil_r.
Qed.

(** Walking the decorators raises nothing and appends service items only. *)
Lemma recorrer_decoradores_retorna (p : IPrestamo) (f : Factura) (r : Reloj) :
  exists f' : Factura,
    Factura.recorrer_decoradores p f r = (Retorna tt, f', r)
    /\ prestamo_base f' = prestamo_base f
    /\ multas f' = multas f.
Proof.
  revert f.
  induction p as [b|p IH tel|p IH prio|p IH monto]; intros f;
    cbn [Factura.recorrer_decoradores];
    [exists f; repeat split|..];
    unfold bind; tras_items_append f r;
    destruct (IH f1) as (f' & -> & Hpb' & Hm');
    exists f'; repeat split; try congruence;
    rewrite Hm'; eapply multas_con_servicio; eauto.
Qed.

Lemma generar_items_retorna (f : Factura) (r : Reloj) :
  exists f' : Factura,
    Factura._generar_items f r = (Retorna tt, f', r)
    /\ prestamo_base f' = prestamo_base f
    /\ multas f' = multas f.
Proof.
  unfold Factura._generar_items, bind, leer.
  destruct (Qlt_bool 0 (PrestamoBase.obtener_costo_base (prestamo_base f))).
  - match goal with
    | |- context [Factura.items_append ?item f r] =>
        destruct (items_append_ejecuta item f r) as (f1 & -> & Hi & Hpb & Hp)
    end.
    destruct (recorrer_decoradores_retorna (prestamo f) f1 r)
      as (f' & -> & Hpb' & Hm').
    exists f'. repeat split; [congruence|].
    rewrite Hm'. eapply multas_con_servicio; eauto.
  - cbn [ret].
    destruct (recorrer_decoradores_retorna (prestamo f) f r)
      as (f' & -> & Hpb' & Hm').
    exists f'. repeat split; assumption.
Qed.

(** [crear_factura] with [incluir_multa] true: the invoice it returns is the
    one the constructor built, without fine items, after one call of
    [agregar_multa]. *)
Lemma crear_factura_con_multa (p : IPrestamo) (pb : PrestamoBase)
    (g : GestorFacturacion) (r : Reloj) :
  exists f0 : Factura,
    prestamo_base f0 = pb
    /\ multas f0 = []
    /\ GestorFacturacion.crear_factura p pb true g r
       = match Factura.agregar_multa f0 (avanzar r) with
         | (Retorna _, f1, r') =>
             (Retorna f1,
              {| contador_facturas := contador_facturas g + 1;
                 facturas_generadas := facturas_generadas g ++ [f1] |},
              r')
         | (Lanza ex, _, r') =>
             (Lanza ex,
              {| contador_facturas := contador_facturas g + 1;
                 facturas_generadas := facturas_generadas g |},
              r')
         end.
Proof.
  unfold GestorFacturacion.crear_factura,
    GestorFacturacion.generar_numero_factura, Factura.__init__,
    bind, leer, mutar, ret, datetime_now, sobre.
  match goal with |- context [Factura._generar_items ?f ?r'] =>
    destruct (generar_items_retorna f r') as (f0 & -> & Hpb & Hm) end.
  exists f0. cbn [snd]. repeat split; [exact Hpb | exact Hm |].
  destruct (Factura.agregar_multa f0 (avanzar r)) as [[[m|ex] f1] r'];
    reflexivity.
Qed.

(** C2, as the code has it: [agregar_multa] is not idempotent.  On an invoice
    whose base loan has a policy bound and is overdue, with a clock that
    never goes back, a first call appends one fine item and a second call
    appends another one: after both, the invoice holds two more fine items
    than before, each worth the fine its call returned, and the subtotal and
    the total without tax have grown by both fines.  Rendering the text with [incluir_multa] true in
    place of the second call leaves the same invoice. *)
Theorem C2_cada_llamada_agrega_una_multa :
  forall (f : Factura) (e : IEstrategiaDeMulta) (r r' : Reloj) (dias : Z),
    estrategia_multa (prestamo_base f) = Some e ->
    monotono r ->
    PrestamoBase.calcular_dias_retraso (prestamo_base f) f r
    = (Retorna dias, f, r') ->
    0 < dias ->
    exists (multa1 multa2 : Q) (dias2 : Z) (f1 f2 : Factura) (r1 r2 : Reloj),
      Factura.agregar_multa f r = (Retorna multa1, f1, r1)
      /\ Factura.agregar_multa f1 r1 = (Retorna multa2, f2, r2)
      /\ items f1 = items f ++ [item_de_multa dias e multa1]
      /\ items f2 = items f1 ++ [item_de_multa dias2 e multa2]
      /\ dias <= dias2
      /\ List.length (multas f1) = S (List.length (multas f))
      /\ List.length (multas f2) = S (S (List.length (multas f)))
      /\ (Factura.calcular_subtotal f1 == Factura.calcular_subtotal f + multa1)%Q
      /\ (Factura.calcular_subtotal f2
          == Factura.calcular_subtotal f + multa1 + multa2)%Q
      /\ (Factura.calcular_total f2 0.0
          == Factura.calcular_total f 0.0 + multa1 + multa2)%Q
      /\ objeto_tras (Factura.generar_factura_texto true f1 r1) = f2.
Proof.
  intros f e r r' dias He Hmono Hrun Hpos.
  destruct (agregar_multa_con_retraso f e r r' dias He Hrun Hpos)
    as (m1 & f1 & r1 & Hcall1 & _ & Hitems1 & Hpb1 & _ & Hsig1).
  destruct (dias_retraso_crece Factura Factura (prestamo_base f) f f1 r r1 r'
              dias Hmono Hsig1 Hrun Hpos) as (dias2 & r1' & Hrun2 & Hle).
  rewrite <- Hpb1 in Hrun2, He.
  destruct (agregar_multa_con_retraso f1 e r1 r1' dias2 He Hrun2 ltac:(lia))
    as (m2 & f2 & r2 & Hcall2 & _ & Hitems2 & Hpb2 & _ & _).
  exists m1, m2, dias2, f1, f2, r1, r2.
  assert (Hs1 : (Factura.calcular_subtotal f1
                 == Factura.calcular_subtotal f + m1)%Q).
  { unfold Factura.calcular_subtotal. rewrite Hitems1.
    now rewrite subtotal_con_un_item. }
  assert (Hm1 : List.length (multas f1) = S (List.length (multas f))).
  { unfold multas. rewrite Hitems1, filter_app, length_app.
    cbn. lia. }
  assert (Hs2 : (Factura.calcular_subtotal f2
                 == Factura.calcular_subtotal f + m1 + m2)%Q).
  { unfold Factura.calcular_subtotal. rewrite Hitems2.
    rewrite subtotal_con_un_item by reflexivity.
    fold (Factura.calcular_subtotal f1). rewrite Hs1. reflexivity. }
  repeat split; try assumption.
  - unfold multas in Hm1 |- *. rewrite Hitems2, filter_app, length_app, Hm1.
    cbn. lia.
  - unfold Factura.calcular_total, Factura.calcular_iva. rewrite Hs2. ring.
  - unfold Factura.generar_factura_texto, bind. rewrite Hcall2.
    cbn [ret leer].
    destruct (dias_retraso_retorna Factura (prestamo_base f2) f2 r2)
      as (d & r3 & Hd).
    rewrite Hd, Hpb2, He. reflexivity.
Qed.

Lemma reloj_detenido_monotono (t : datetime) : monotono (reloj_detenido t).
Proof. intros i j _. cbn. lia. Qed.

(** The sample invoice, 24 days after a 14-day loan, meets the hypotheses of
    C2's theorem. *)
Lemma C2_cada_llamada_agrega_una_multa_witness :
  estrategia_multa
    (prestamo_base (factura_de_prueba (Some MultaDocenteStrategy)
                      (timedelta_days 24)))
  = Some MultaDocenteStrategy
  /\ monotono (reloj_detenido (timedelta_days 24))
  /\ 0 < 10
  /\ exists (multa1 multa2 : Q) (f1 f2 : Factura) (r1 r2 : Reloj),
       Factura.agregar_multa
         (factura_de_prueba (Some MultaDocenteStrategy) (timedelta_days 24))
         (reloj_detenido (timedelta_days 24))
       = (Retorna multa1, f1, r1)
       /\ Factura.agregar_multa f1 r1 = (Retorna multa2, f2, r2)
       /\ List.length (multas f2) = 2%nat.
Proof.
  split; [reflexivity|]. split; [apply reloj_detenido_monotono|].
  split; [lia|].
  destruct (C2_cada_llamada_agrega_una_multa
              (factura_de_prueba (Some MultaDocenteStrategy) (timedelta_days 24))
              MultaDocenteStrategy
              (reloj_detenido (timedelta_days 24))
              (avanzar (avanzar (reloj_detenido (timedelta_days 24))))
              10
              eq_refl
              (reloj_detenido_monotono (timedelta_days 24))
              eq_refl
              eq_refl)
    as (m1 & m2 & d2 & f1 & f2 & r1 & r2 & H1 & H2 & _ & _ & _ & _ & H3 & _).
  exists m1, m2, f1, f2, r1, r2. auto.
Defined.

(** C2, refuted as stated: the sample loan is 10 days late with a policy
    bound; the second call of [agregar_multa] changes the item list, leaves
    two fine items of 7.00 and raises the subtotal from 37.00 to 44.00; and
    rendering the text of an invoice that [crear_factura] already fined adds
    the second fine as well. *)
Lemma C2_agregar_multa_no_idempotente :
  resultado_de
    (PrestamoBase.calcular_dias_retraso
       (prestamo_de_prueba (Some MultaDocenteStrategy)) tt
       (reloj_detenido (timedelta_days 24)))
  = Retorna 10
  /\ List.length (multas (objeto_tras una_llamada)) = 1%nat
  /\ List.length (multas (objeto_tras dos_llamadas)) = 2%nat
  /\ items (objeto_tras dos_llamadas) <> items (objeto_tras una_llamada)
  /\ (Factura.calcular_subtotal (objeto_tras una_llamada) == 37.00)%Q
  /\ (Factura.calcular_subtotal (objeto_tras dos_llamadas) == 44.00)%Q
  /\ (exists f f' : Factura,
         factura_impresa = Some (f, f')
         /\ List.length (multas f) = 1%nat
         /\ List.length (multas f') = 2%nat
         /\ items f' <> items f).
Proof.
  split; [reflexivity|]. split; [reflexivity|]. split; [reflexivity|].
  split; [intros H; apply (f_equal (@List.length _)) in H;
          vm_compute in H; discriminate|].
  split; [reflexivity|]. split; [reflexivity|].
  do 2 eexists. split; [reflexivity|].
  split; [reflexivity|]. split; [reflexivity|].
  intros H; apply (f_equal (@List.length _)) in H; vm_compute in H; discriminate.
Qed.

(** C10: on an invoice whose base loan is overdue and has no policy bound,
    [agregar_multa] raises the [ValueError] of the missing policy and leaves
    the invoice as it was: same items, same subtotal, same total. *)
Theorem C10_agregar_multa_sin_estrategia :
  forall (f : Factura) (r r' : Reloj) (dias : Z) (iva : Q),
    estrategia_multa (prestamo_base f) = None ->
    PrestamoBase.calcular_dias_retraso (prestamo_base f) f r
    = (Retorna dias, f, r') ->
    0 < dias ->
    (exists mensaje : string,
        resultado_de (Factura.agregar_multa f r)
        = @Lanza Q (ValueError mensaje))
    /\ objeto_tras (Factura.agregar_multa f r) = f
    /\ items (objeto_tras (Factura.agregar_multa f r)) = items f
    /\ Factura.calcular_subtotal (objeto_tras (Factura.agregar_multa f r))
       = Factura.calcular_subtotal f
    /\ Factura.calcular_total (objeto_tras (Factura.agregar_multa f r)) iva
       = Factura.calcular_total f iva.
Proof.
  intros f r r' dias iva He Hrun Hpos.
  assert (H : Factura.agregar_multa f r
              = (Lanza (ValueError
                   "No se ha establecido una estrategia de multa para este préstamo"),
                 f, r')).
  { unfold Factura.agregar_multa, bind, leer. rewrite Hrun.
    apply Z.ltb_lt in Hpos. rewrite Hpos.
    unfold PrestamoBase.calcular_multa. rewrite He. reflexivity. }
  rewrite H. cbn [resultado_de objeto_tras fst snd].
  split; [eexists; reflexivity|]. repeat split.
Qed.

(** The sample invoice without a policy, 10 days late, meets the hypotheses
    of C10. *)
Lemma C10_agregar_multa_sin_estrategia_witness :
  estrategia_multa (prestamo_base (factura_de_prueba None (timedelta_days 24)))
  = None
  /\ 0 < 10
  /\ items (objeto_tras
              (Factura.agregar_multa
                 (factura_de_prueba None (timedelta_days 24))
                 (reloj_detenido (timedelta_days 24))))
     = items (factura_de_prueba None (timedelta_days 24)).
Proof.
  split; [reflexivity|]. split; [lia|].
  apply (C10_agregar_multa_sin_estrategia
           (factura_de_prueba None (timedelta_days 24))
           (reloj_detenido (timedelta_days 24))
           (avanzar (avanzar (reloj_detenido (timedelta_days 24))))
           10 0.0%Q eq_refl eq_refl eq_refl).
Defined.

(** ** Factories and inventory *)

(** C3, refuted as stated: a printed-book factory given a payload with no
    field at all raises nothing; it returns a resource whose title, author
    and ISBN are [None], and the inventory, empty before, holds it. *)
Lemma C3_fabrica_crea_sin_campos :
  kw_titulo kwargs_vacio = None
  /\ exists rec : Recurso,
       FabricaDeRecursos.crear_recurso FabricaLibroImpreso kwargs_vacio tt
         (reloj_detenido 0)
       = (Retorna rec, tt, avanzar (reloj_detenido 0))
       /\ GestorDeInventario.agregar_recurso_con_fabrica FabricaLibroImpreso
            kwargs_vacio GestorDeInventario.__init__ (reloj_detenido 0)
          = (Retorna rec, {| recursos := [rec] |}, avanzar (reloj_detenido 0))
       /\ titulo rec = None /\ autor rec = None /\ isbn rec = None
       /\ variante rec = LibroImpreso None None.
Proof.
  split; [reflexivity|].
  exists (Recurso.__init__ None None None 0 (LibroImpreso None None)).
  repeat split.
Qed.

(** C3, as the code has it: no factory validates its payload.  For every
    factory and every payload, [crear_recurso] returns a resource whose
    fields are what the payload holds under each key, [None] for a missing
    key and the current time for a missing acquisition date, and
    [agregar_recurso_con_fabrica] returns that resource and appends it to the
    inventory. *)
Theorem C3_fabrica_no_valida :
  forall (fabrica : FabricaDeRecursos) (kwargs : Kwargs)
         (inventario : GestorDeInventario) (r : Reloj),
    exists rec : Recurso,
      FabricaDeRecursos.crear_recurso fabrica kwargs inventario r
      = (Retorna rec, inventario, avanzar r)
      /\ GestorDeInventario.agregar_recurso_con_fabrica fabrica kwargs
           inventario r
         = (Retorna rec, {| recursos := recursos inventario ++ [rec] |},
            avanzar r)
      /\ titulo rec = kw_titulo kwargs
      /\ autor rec = kw_autor kwargs
      /\ isbn rec = kw_isbn kwargs
      /\ fecha_adquisicion rec
         = get_default (kw_fecha_adquisicion kwargs) (lecturas r (tic r))
      /\ disponible rec = true
      /\ variante rec
         = match fabrica with
           | FabricaLibroImpreso =>
               LibroImpreso (kw_numero_paginas kwargs) (kw_editorial kwargs)
           | FabricaRevista =>
               Revista (kw_numero_edicion kwargs) (kw_mes_publicacion kwargs)
           | FabricaRecursoDigital =>
               RecursoDigital (kw_formato kwargs) (kw_tamaño_mb kwargs)
                              (kw_url_acceso kwargs)
           end.
Proof.
  intros fabrica kwargs inventario r.
  exists (Recurso.__init__ (kw_titulo kwargs) (kw_autor kwargs) (kw_isbn kwargs)
            (get_default (kw_fecha_adquisicion kwargs) (lecturas r (tic r)))
            match fabrica with
            | FabricaLibroImpreso =>
                LibroImpreso (kw_numero_paginas kwargs) (kw_editorial kwargs)
            | FabricaRevista =>
                Revista (kw_numero_edicion kwargs) (kw_mes_publicacion kwargs)
            | FabricaRecursoDigital =>
                RecursoDigital (kw_formato kwargs) (kw_tamaño_mb kwargs)
                               (kw_url_acceso kwargs)
            end).
  repeat split.
Qed.

(** ** The four policies, value by value *)

Lemma Qlt_bool_false (x y : Q) : (y <= x)%Q -> Qlt_bool x y = false.
Proof.
  intros H. unfold Qlt_bool. apply Qle_bool_iff in H. now rewrite H.
Qed.

Lemma inject_Z_uno (dias : Z) : 0 < dias -> (1 <= inject_Z dias)%Q.
Proof.
  intros H. change 1%Q with (inject_Z 1). rewrite <- Zle_Qle. lia.
Qed.

(** Every policy returns a value, reads the clock at most once, and its fine
    is the whole number of hundredths [centesimas] gives: rounding to two
    decimals never changes it. *)
Lemma politica_en_centesimas (Obj : Type) (e : IEstrategiaDeMulta) (dias : Z)
    (costo : Q) (rec : Recurso) (self : Obj) (r : Reloj) :
  exists (multa : Q) (r' : Reloj),
    IEstrategiaDeMulta.calcular_multa e dias costo rec self r
    = (Retorna multa, self, r')
    /\ (multa * 100 == inject_Z (centesimas e (antiguedad_en r rec) dias))%Q.
Proof.
  unfold centesimas.
  destruct (Z.leb_spec dias 0) as [Hle|Hpos].
  - rewrite politica_sin_retraso by assumption. do 2 eexists. split; reflexivity.
  - pose proof (inject_Z_uno dias Hpos) as H1.
    segun_politica e; (destruct (Z.leb_spec dias 0) as [?|_]; [lia|]).
    + (* student *)
      unfold Recurso.calcular_antiguedad_dias, bind, datetime_now, ret.
      fold (antiguedad_en r rec).
      unfold MultaEstudianteStrategy.ANTIGUEDAD_UMBRAL_DIAS,
        MultaEstudianteStrategy.TARIFA_BASE_DIA,
        MultaEstudianteStrategy.DESCUENTO_RECURSO_ANTIGUO.
      change (365 * 5) with 1825.
      destruct (1825 <? antiguedad_en r rec); do 2 eexists;
        (split; [reflexivity|]); unfold max;
        rewrite Qlt_bool_false by lra;
        rewrite inject_Z_mult;
        [ rewrite (round_2_centesimas _ (100 * dias))
        | rewrite (round_2_centesimas _ (200 * dias)) ];
        rewrite ?inject_Z_mult;
        try change (inject_Z 100) with 100%Q;
        try change (inject_Z 200) with 200%Q; lra.
    + (* faculty *)
      unfold MultaDocenteStrategy.DIAS_GRACIA,
        MultaDocenteStrategy.TARIFA_BASE_DIA.
      destruct (Z.eqb_spec (Z.max 0 (dias - 3)) 0) as [->|Hne];
        do 2 eexists; (split; [reflexivity|]); [reflexivity|].
      rewrite (round_2_centesimas _ (100 * Z.max 0 (dias - 3)));
        rewrite ?inject_Z_mult; change (inject_Z 100) with 100%Q; lra.
    + (* progressive *)
      do 2 eexists. split; [reflexivity|].
      rewrite <- (Z2Nat.id dias) by lia.
      rewrite (round_2_centesimas _
                 (300 * Z.of_nat (Z.to_nat dias)
                  + 25 * Z.of_nat (Z.to_nat dias) * (Z.of_nat (Z.to_nat dias) - 1)));
        rewrite suma_recargada; apply centesimas_recargada.
    + (* by age *)
      unfold Recurso.calcular_antiguedad_dias, bind, datetime_now, ret.
      fold (antiguedad_en r rec).
      rewrite tarifa_por_tramos.
      unfold MultaPorAntiguedadRecursoStrategy.TARIFA_RECURSO_NUEVO,
        MultaPorAntiguedadRecursoStrategy.TARIFA_RECURSO_MEDIO,
        MultaPorAntiguedadRecursoStrategy.TARIFA_RECURSO_ANTIGUO.
      do 2 eexists. split; [reflexivity|].
      destruct (antiguedad_en r rec <? 365);
        [|destruct (antiguedad_en r rec <? 1825)];
        [ rewrite (round_2_centesimas _ (500 * dias))
        | rewrite (round_2_centesimas _ (250 * dias))
        | rewrite (round_2_centesimas _ (100 * dias)) ];
        rewrite ?inject_Z_mult;
        try change (inject_Z 500) with 500%Q;
        try change (inject_Z 250) with 250%Q;
        try change (inject_Z 100) with 100%Q; lra.
Qed.

Lemma Qle_por_centesimas (m1 m2 : Q) (z1 z2 : Z) :
  (m1 * 100 == inject_Z z1)%Q -> (m2 * 100 == inject_Z z2)%Q ->
  z1 <= z2 -> (m1 <= m2)%Q.
Proof.
  intros H1 H2 Hz. rewrite Zle_Qle in Hz. lra.
Qed.

Lemma centesimas_no_negativas (e : IEstrategiaDeMulta) (a dias : Z) :
  0 <= centesimas e a dias.
Proof.
  unfold centesimas.
  destruct (Z.leb_spec dias 0); [lia|].
  destruct e; repeat match goal with |- context [if ?b then _ else _] =>
    destruct b end; nia.
Qed.













(** ** The base loan over time *)

(** X7: read with a clock that never goes back, the days late of a base loan
    are never negative; they are 0, after a single reading, when the first
    reading is not past the due date, and positive exactly when the second
    reading is a full day or more past it. *)
Theorem dias_retraso_no_negativos :
  forall (Obj : Type) (p : PrestamoBase) (self : Obj) (r : Reloj),
    monotono r ->
    exists (dias : Z) (r' : Reloj),
      PrestamoBase.calcular_dias_retraso p self r = (Retorna dias, self, r')
      /\ 0 <= dias
      /\ (lecturas r (tic r) <= PrestamoBase.obtener_fecha_devolucion p ->
          dias = 0 /\ r' = avanzar r)
      /\ (0 < dias <->
          PrestamoBase.obtener_fecha_devolucion p < lecturas r (tic r)
          /\ PrestamoBase.obtener_fecha_devolucion p + MICROSEGUNDOS_POR_DIA
             <= lecturas r (S (tic r))).
Proof.
  intros Obj p self r Hmono.
  rewrite dias_retraso_ejecuta.
  pose proof (Hmono (tic r) (S (tic r)) ltac:(lia)) as Hsig.
  set (fd := PrestamoBase.obtener_fecha_devolucion p) in *.
  assert (Hdia : 0 < MICROSEGUNDOS_POR_DIA) by reflexivity.
  destruct (Z.ltb_spec fd (lecturas r (tic r))) as [Hlt|Hge];
    do 2 eexists; (split; [reflexivity|]).
  - unfold days. repeat split.
    + apply Z.div_pos; lia.
    + lia.
    + lia.
    + assumption.
    + destruct (Z.lt_ge_cases (lecturas r (S (tic r)) - fd)
                  MICROSEGUNDOS_POR_DIA) as [Hpoco|Hmucho]; [|lia].
      rewrite Z.div_small in H by lia. lia.
    + intros [_ H]. apply Z.div_str_pos; lia.
  - repeat split; try lia.
Qed.

(** The sample loan, read ten days after its due date. *)
Lemma dias_retraso_no_negativos_witness :
  monotono (reloj_detenido (timedelta_days 24))
  /\ exists (dias : Z) (r' : Reloj),
       PrestamoBase.calcular_dias_retraso
         (prestamo_de_prueba (Some MultaDocenteStrategy)) tt
         (reloj_detenido (timedelta_days 24))
       = (Retorna dias, tt, r')
       /\ 0 <= dias.
Proof.
  split; [apply reloj_detenido_monotono|].
  destruct (dias_retraso_no_negativos unit
              (prestamo_de_prueba (Some MultaDocenteStrategy)) tt
              (reloj_detenido (timedelta_days 24))
              (reloj_detenido_monotono (timedelta_days 24)))
    as (dias & r' & H1 & H2 & _).
  exists dias, r'. split; assumption.
Defined.



Lemma politica_solo_fecha (Obj : Type) (e : IEstrategiaDeMulta) (dias : Z)
    (costo : Q) (rec1 rec2 : Recurso) (self : Obj) (r : Reloj) :
  fecha_adquisicion rec1 = fecha_adquisicion rec2 ->
  IEstrategiaDeMulta.calcular_multa e dias costo rec1 self r
  = IEstrategiaDeMulta.calcular_multa e dias costo rec2 self r.
Proof.
  intros H. segun_politica e; unfold Recurso.calcular_antiguedad_dias;
    rewrite ?H; reflexivity.
Qed.

(** X9: the fine of a base loan with a policy bound is never negative and is
    a whole number of hundredths. *)
Theorem multa_del_prestamo_en_centesimas :
  forall (Obj : Type) (p : PrestamoBase) (e : IEstrategiaDeMulta) (self : Obj)
         (r : Reloj),
    estrategia_multa p = Some e ->
    exists (multa : Q) (r' : Reloj) (z : Z),
      PrestamoBase.calcular_multa p self r = (Retorna multa, self, r')
      /\ (0 <= multa)%Q
      /\ 0 <= z
      /\ (multa * 100 == inject_Z z)%Q.
Proof.
  intros Obj p e self r He.
  rewrite (multa_delega Obj p e self r He).
  destruct (dias_retraso_retorna Obj p self r) as (d & r1 & Hd).
  unfold bind. rewrite Hd.
  destruct (politica_en_centesimas Obj e d (PrestamoBase.obtener_costo_base p)
              (recurso p) self r1) as (multa & r' & Hrun & Hc).
  exists multa, r', (centesimas e (antiguedad_en r1 (recurso p)) d).
  pose proof (centesimas_no_negativas e (antiguedad_en r1 (recurso p)) d) as Hz.
  repeat split; try assumption.
  apply (Qle_por_centesimas 0 multa 0 _ ltac:(reflexivity) Hc Hz).
Qed.

(** The sample loan, ten days late, with the progressive policy. *)
Lemma multa_del_prestamo_en_centesimas_witness :
  estrategia_multa (prestamo_de_prueba (Some MultaRecargadaStrategy))
  = Some MultaRecargadaStrategy
  /\ exists (multa : Q) (r' : Reloj),
       PrestamoBase.calcular_multa
         (prestamo_de_prueba (Some MultaRecargadaStrategy)) tt
         (reloj_detenido (timedelta_days 24))
       = (Retorna multa, tt, r')
       /\ (0 <= multa)%Q.
Proof.
  split; [reflexivity|].
  destruct (multa_del_prestamo_en_centesimas unit
              (prestamo_de_prueba (Some MultaRecargadaStrategy))
              MultaRecargadaStrategy tt (reloj_detenido (timedelta_days 24))
              eq_refl)
    as (multa & r' & z & H1 & H2 & _).
  exists multa, r'. split; assumption.
Defined.

(** X10: returning the resource marks it available and changes nothing else
    the loan is billed on: due date, days late and fine are those of the
    loan before the return. *)
Theorem devolver_recurso_conserva_la_multa :
  forall (Obj : Type) (p : PrestamoBase) (self : Obj) (r : Reloj),
    disponible (recurso (PrestamoBase.devolver_recurso p)) = true
    /\ PrestamoBase.obtener_fecha_devolucion (PrestamoBase.devolver_recurso p)
       = PrestamoBase.obtener_fecha_devolucion p
    /\ PrestamoBase.calcular_dias_retraso (PrestamoBase.devolver_recurso p)
         self r
       = PrestamoBase.calcular_dias_retraso p self r
    /\ PrestamoBase.calcular_multa (PrestamoBase.devolver_recurso p) self r
       = PrestamoBase.calcular_multa p self r.
Proof.
  intros Obj p self r.
  split; [reflexivity|]. split; [reflexivity|].
  assert (Hd : PrestamoBase.calcular_dias_retraso
                 (PrestamoBase.devolver_recurso p) self r
               = PrestamoBase.calcular_dias_retraso p self r) by reflexivity.
  split; [exact Hd|].
  unfold PrestamoBase.calcular_multa.
  change (estrategia_multa (PrestamoBase.devolver_recurso p))
    with (estrategia_multa p).
  destruct (estrategia_multa p) as [e|]; [|reflexivity].
  unfold bind. rewrite Hd.
  destruct (PrestamoBase.calcular_dias_retraso p self r) as [[[d|ex] s] r1];
    [|reflexivity].
  destruct (d <=? 0); [reflexivity|].
  apply politica_solo_fecha. reflexivity.
Qed.

(** ** New invoices *)

Lemma Qlt_bool_iff (x y : Q) : Qlt_bool x y = true <-> (x < y)%Q.
Proof.
  unfold Qlt_bool. rewrite negb_true_iff, <- not_true_iff_false, Qle_bool_iff.
  split; [apply Qnot_le_lt | apply Qlt_not_le].
Qed.

Lemma con_items_mismos (f : Factura) : con_items f (items f) = f.
Proof. now destruct f. Qed.

Lemma recorrer_decoradores_items (p : IPrestamo) (f : Factura) (r : Reloj) :
  Factura.recorrer_decoradores p f r
  = (Retorna tt,
     con_items f (items f ++ rev (map item_de_servicio (servicios_de p))),
     r).
Proof.
  revert f.
  induction p as [b|p IH tel|p IH prio|p IH monto]; intros f;
    cbn [Factura.recorrer_decoradores servicios_de];
    [ cbn [map rev]; now rewrite app_nil_r, con_items_mismos |..];
    unfold bind, Factura.items_append, mutar;
    rewrite IH, map_app, rev_app_distr; cbn [map rev app items con_items];
    unfold con_items; cbn [numero_factura prestamo prestamo_base fecha_emision];
    now rewrite <- app_assoc.
Qed.

Lemma generar_items_ejecuta (f : Factura) (r : Reloj) :
  Factura._generar_items f r
  = (Retorna tt,
     con_items f
       (items f
        ++ (if Qlt_bool 0 (PrestamoBase.obtener_costo_base (prestamo_base f))
            then [item_de_recurso (prestamo_base f)] else [])
        ++ rev (map item_de_servicio (servicios_de (prestamo f)))),
     r).
Proof.
  unfold Factura._generar_items, bind, leer.
  destruct (Qlt_bool 0 (PrestamoBase.obtener_costo_base (prestamo_base f))).
  - unfold Factura.items_append, mutar.
    rewrite recorrer_decoradores_items.
    cbn [items prestamo]. unfold con_items.
    cbn [numero_factura prestamo prestamo_base fecha_emision].
    now rewrite <- app_assoc.
  - cbn [ret]. rewrite recorrer_decoradores_items. reflexivity.
Qed.

Lemma factura_init_ejecuta :
  forall (Obj : Type) (numero : string) (p : IPrestamo) (pb : PrestamoBase)
         (self : Obj) (r : Reloj),
    Factura.__init__ numero p pb self r
    = (Retorna
         {| numero_factura := numero;
            prestamo := p;
            prestamo_base := pb;
            items :=
              (if Qlt_bool 0 (PrestamoBase.obtener_costo_base pb)
               then [item_de_recurso pb] else [])
              ++ rev (map item_de_servicio (servicios_de p));
            fecha_emision := lecturas r (tic r) |},
       self, avanzar r).
Proof.
  intros Obj numero p pb self r.
  unfold Factura.__init__, bind, datetime_now, sobre.
  rewrite generar_items_ejecuta. reflexivity.
Qed.

(** X11: building an invoice never raises and reads the clock once; the new
    invoice holds one service item per decorator of the chain, the outermost
    decorator first, after an item for the base loan only when the base loan
    has a positive cost. *)
Theorem factura_nueva_items :
  forall (Obj : Type) (numero : string) (p : IPrestamo) (pb : PrestamoBase)
         (self : Obj) (r : Reloj),
    Factura.__init__ numero p pb self r
    = (Retorna
         {| numero_factura := numero;
            prestamo := p;
            prestamo_base := pb;
            items :=
              (if Qlt_bool 0 (PrestamoBase.obtener_costo_base pb)
               then [item_de_recurso pb] else [])
              ++ rev (map item_de_servicio (servicios_de p));
            fecha_emision := lecturas r (tic r) |},
       self, avanzar r).
Proof.
  intros Obj numero p pb self r.
  unfold Factura.__init__, bind, datetime_now, sobre.
  rewrite generar_items_ejecuta. reflexivity.
Qed.

Lemma subtotal_de_servicios (ss : list Servicio) :
  (sum (map ItemFactura.subtotal (map item_de_servicio ss))
   == sum (map delta_costo ss))%Q.
Proof.
  induction ss as [|s ss IH]; [reflexivity|].
  cbn [map]. rewrite !sum_cons, IH.
  destruct s; unfold ItemFactura.subtotal;
    cbn [item_de_servicio cantidad valor_unitario delta_costo];
    unfold DecoradorNotificacionSMS.COSTO_SERVICIO_SMS,
      DecoradorReservaPreferencial.COSTO_RESERVA_PREFERENCIAL,
      DecoradorSeguroExtravio.COSTO_SEGURO;
    change (inject_Z 1) with 1%Q; ring.
Qed.

Lemma costo_de_cadena (p : IPrestamo) :
  (IPrestamo.obtener_costo_base p
   == PrestamoBase.obtener_costo_base (IPrestamo.prestamo_mas_interno p)
      + sum (map delta_costo (servicios_de p)))%Q.
Proof.
  rewrite <- (envolver_servicios_de p) at 1. unfold envolver.
  rewrite costo_decorado. reflexivity.
Qed.

(** X12: when the invoice is built for a chain and its own innermost loan,
    and that loan's cost is not negative, the subtotal of the new invoice,
    and its total without tax, equal the cost of the chain. *)
Theorem factura_nueva_subtotal :
  forall (Obj : Type) (numero : string) (p : IPrestamo) (self : Obj)
         (r : Reloj),
    (0 <= PrestamoBase.obtener_costo_base (IPrestamo.prestamo_mas_interno p))%Q ->
    exists f : Factura,
      Factura.__init__ numero p (IPrestamo.prestamo_mas_interno p) self r
      = (Retorna f, self, avanzar r)
      /\ (Factura.calcular_subtotal f == IPrestamo.obtener_costo_base p)%Q
      /\ (Factura.calcular_total f 0.0 == IPrestamo.obtener_costo_base p)%Q.
Proof.
  intros Obj numero p self r Hcosto.
  rewrite factura_init_ejecuta. eexists. split; [reflexivity|].
  match goal with |- (?s == _)%Q /\ _ =>
    assert (Hs : (s == IPrestamo.obtener_costo_base p)%Q) end.
  { unfold Factura.calcular_subtotal. cbn [items].
    rewrite map_app, sum_app, costo_de_cadena.
    rewrite (sum_Permutation (map ItemFactura.subtotal (rev _))
               (map ItemFactura.subtotal
                  (map item_de_servicio (servicios_de p))))
      by (apply Permutation_map, Permutation_sym, Permutation_rev).
    rewrite subtotal_de_servicios.
    destruct (Qlt_bool 0 (PrestamoBase.obtener_costo_base
                            (IPrestamo.prestamo_mas_interno p))) eqn:Hb.
    - cbn [map]. rewrite sum_cons. unfold ItemFactura.subtotal, item_de_recurso.
      cbn [cantidad valor_unitario]. unfold sum at 1. cbn [fold_left].
      change (inject_Z 1) with 1%Q. ring.
    - assert (Hno : ~ (0 < PrestamoBase.obtener_costo_base
                              (IPrestamo.prestamo_mas_interno p))%Q).
      { rewrite <- Qlt_bool_iff, Hb. discriminate. }
      apply Qnot_lt_le in Hno.
      cbn [map]. unfold sum at 1. cbn [fold_left]. lra. }
  split; [exact Hs|].
  unfold Factura.calcular_total, Factura.calcular_iva. rewrite Hs. ring.
Qed.

(** The sample chain and its innermost loan. *)
Lemma factura_nueva_subtotal_witness :
  (0 <= PrestamoBase.obtener_costo_base
          (IPrestamo.prestamo_mas_interno
             (cadena_de_prueba (Some MultaDocenteStrategy))))%Q
  /\ exists f : Factura,
       Factura.__init__ "FACT-UCC-000001"
         (cadena_de_prueba (Some MultaDocenteStrategy))
         (IPrestamo.prestamo_mas_interno
            (cadena_de_prueba (Some MultaDocenteStrategy)))
         tt (reloj_detenido 0)
       = (Retorna f, tt, avanzar (reloj_detenido 0))
       /\ (Factura.calcular_subtotal f == 30)%Q.
Proof.
  split; [discriminate|].
  destruct (factura_nueva_subtotal unit "FACT-UCC-000001"
              (cadena_de_prueba (Some MultaDocenteStrategy)) tt
              (reloj_detenido 0) ltac:(discriminate))
    as (f & H1 & H2 & _).
  exists f. split; [exact H1|]. rewrite H2. reflexivity.
Defined.

(** ** Rendering and recording invoices *)

Lemma agregar_multa_sin_retraso (f : Factura) (r r' : Reloj) (dias : Z) :
  PrestamoBase.calcular_dias_retraso (prestamo_base f) f r
  = (Retorna dias, f, r') ->
  dias <= 0 ->
  Factura.agregar_multa f r = (Retorna 0.0%Q, f, r').
Proof.
  intros Hrun Hle. unfold Factura.agregar_multa, bind, leer. rewrite Hrun.
  destruct (Z.ltb_spec 0 dias); [lia|reflexivity].
Qed.

(** Whatever it returns or raises, [agregar_multa] touches the item list
    only, and only by appending. *)
Lemma agregar_multa_conserva (f f' : Factura) (r r' : Reloj)
    (res : Resultado Q) :
  Factura.agregar_multa f r = (res, f', r') ->
  numero_factura f' = numero_factura f
  /\ prestamo f' = prestamo f
  /\ prestamo_base f' = prestamo_base f
  /\ fecha_emision f' = fecha_emision f
  /\ exists nuevos : list ItemFactura, items f' = items f ++ nuevos.
Proof.
  unfold Factura.agregar_multa, bind, leer.
  destruct (dias_retraso_retorna Factura (prestamo_base f) f r)
    as (d & r1 & ->).
  destruct (0 <? d).
  - unfold PrestamoBase.calcular_multa.
    destruct (estrategia_multa (prestamo_base f)) as [e|] eqn:He.
    + fold (@PrestamoBase.calcular_multa Factura (prestamo_base f)).
      destruct (multa_retorna Factura (prestamo_base f) e f r1 He)
        as (m & r2 & Hm).
      unfold PrestamoBase.calcular_multa in Hm. rewrite He in Hm. rewrite Hm.
      cbn [Factura.nombre_de_estrategia ret Factura.items_append mutar].
      intros [= <- <- <-]. cbn. repeat split. now eexists.
    + cbn [lanzar]. intros [= <- <- <-]. repeat split.
      exists []. now rewrite app_nil_r.
  - cbn [ret]. intros [= <- <- <-]. repeat split.
    exists []. now rewrite app_nil_r.
Qed.

Lemma agregar_multa_retorna (f : Factura) (e : IEstrategiaDeMulta) (r : Reloj) :
  estrategia_multa (prestamo_base f) = Some e ->
  exists (multa : Q) (f' : Factura) (r' : Reloj),
    Factura.agregar_multa f r = (Retorna multa, f', r').
Proof.
  intros He.
  destruct (dias_retraso_retorna Factura (prestamo_base f) f r)
    as (d & r1 & Hd).
  destruct (Z.lt_ge_cases 0 d) as [Hpos|Hle].
  - destruct (agregar_multa_con_retraso f e r r1 d He Hd Hpos)
      as (m & f' & r2 & H & _).
    now exists m, f', r2.
  - exists 0.0%Q, f, r1. apply agregar_multa_sin_retraso with (dias := d);
      [assumption | lia].
Qed.

Lemma texto_sin_multa_ejecuta (f : Factura) (r : Reloj) :
  Factura.generar_factura_texto false f r
  = match estrategia_multa (prestamo_base f) with
    | Some _ =>
        (Retorna tt, f,
         reloj_tras (PrestamoBase.calcular_dias_retraso (prestamo_base f) f r))
    | None =>
        (Lanza (AttributeError
           "'NoneType' object has no attribute 'obtener_nombre_estrategia'"),
         f,
         reloj_tras (PrestamoBase.calcular_dias_retraso (prestamo_base f) f r))
    end.
Proof.
  unfold Factura.generar_factura_texto, bind, leer. cbn [ret].
  destruct (dias_retraso_retorna Factura (prestamo_base f) f r)
    as (d & r1 & ->).
  destruct (estrategia_multa (prestamo_base f)); reflexivity.
Qed.

Lemma texto_con_multa_ejecuta (f : Factura) (r : Reloj) :
  Factura.generar_factura_texto true f r
  = match Factura.agregar_multa f r with
    | (Retorna _, f1, r1) => Factura.generar_factura_texto false f1 r1
    | (Lanza ex, f1, r1) => (Lanza ex, f1, r1)
    end.
Proof.
  unfold Factura.generar_factura_texto, bind.
  destruct (Factura.agregar_multa f r) as [[[m|ex] f1] r1]; reflexivity.
Qed.

(** X13: rendering the text of an invoice raises exactly when its base loan
    has no policy bound, with or without [incluir_multa]; without
    [incluir_multa] the exception is the [AttributeError] of the footer and
    the invoice is left as it was. *)
Theorem texto_requiere_estrategia :
  forall (incluir_multa : bool) (f : Factura) (r : Reloj),
    ((exists ex : Excepcion,
         resultado_de (Factura.generar_factura_texto incluir_multa f r)
         = Lanza ex)
     <-> estrategia_multa (prestamo_base f) = None)
    /\
    (estrategia_multa (prestamo_base f) = None ->
     exists mensaje : string,
       resultado_de (Factura.generar_factura_texto false f r)
       = Lanza (AttributeError mensaje)
       /\ objeto_tras (Factura.generar_factura_texto false f r) = f).
Proof.
  intros incluir f r. split.
  - destruct incluir.
    + rewrite texto_con_multa_ejecuta.
      destruct (Factura.agregar_multa f r) as [[[m|ex] f1] r1] eqn:Hag.
      * destruct (agregar_multa_conserva f f1 r r1 _ Hag)
          as (_ & _ & Hpb & _).
        rewrite texto_sin_multa_ejecuta, Hpb.
        destruct (estrategia_multa (prestamo_base f)); cbn.
        -- split; [intros [ex [=]] | discriminate].
        -- split; [reflexivity | eexists; reflexivity].
      * cbn. split; [|eexists; reflexivity].
        intros _. destruct (estrategia_multa (prestamo_base f)) as [e|] eqn:He;
          [|reflexivity].
        destruct (agregar_multa_retorna f e r He) as (m & f' & r' & H).
        rewrite H in Hag. discriminate.
    + rewrite texto_sin_multa_ejecuta.
      destruct (estrategia_multa (prestamo_base f)); cbn.
      * split; [intros [ex [=]] | discriminate].
      * split; [reflexivity | eexists; reflexivity].
  - intros He. rewrite texto_sin_multa_ejecuta, He. cbn.
    eexists; split; reflexivity.
Qed.

(** The sample invoice without a policy, not yet due. *)
Lemma texto_requiere_estrategia_witness :
  estrategia_multa (prestamo_base (factura_de_prueba None 0)) = None
  /\ exists mensaje : string,
       resultado_de
         (Factura.generar_factura_texto false (factura_de_prueba None 0)
            (reloj_detenido 0))
       = Lanza (AttributeError mensaje).
Proof.
  split; [reflexivity|].
  destruct (proj2 (texto_requiere_estrategia false (factura_de_prueba None 0)
                     (reloj_detenido 0)) eq_refl) as (mensaje & H & _).
  now exists mensaje.
Defined.

(** X20: whatever it returns or raises, [agregar_multa] never removes or
    changes an item, and never touches the number, the loans or the date of
    the invoice: the items after the call are the items before it followed
    by at most one new item, which is a fine. *)
Theorem agregar_multa_solo_anexa :
  forall (f : Factura) (r : Reloj),
    numero_factura (objeto_tras (Factura.agregar_multa f r)) = numero_factura f
    /\ prestamo (objeto_tras (Factura.agregar_multa f r)) = prestamo f
    /\ prestamo_base (objeto_tras (Factura.agregar_multa f r)) = prestamo_base f
    /\ fecha_emision (objeto_tras (Factura.agregar_multa f r)) = fecha_emision f
    /\ exists nuevos : list ItemFactura,
         items (objeto_tras (Factura.agregar_multa f r)) = items f ++ nuevos
         /\ (List.length nuevos <= 1)%nat
         /\ Forall (fun item => tipo item = "MULTA"%string) nuevos.
Proof.
  intros f r.
  destruct (dias_retraso_retorna Factura (prestamo_base f) f r)
    as (d & r1 & Hd).
  destruct (Z.lt_ge_cases 0 d) as [Hpos|Hle].
  - destruct (estrategia_multa (prestamo_base f)) as [e|] eqn:He.
    + destruct (agregar_multa_con_retraso f e r r1 d He Hd Hpos)
        as (m & f' & r2 & Hrun & _ & Hitems & Hpb & Hp & _).
      destruct (agregar_multa_conserva f f' r r2 _ Hrun)
        as (Hn & _ & _ & Hfe & _).
      rewrite Hrun. cbn [objeto_tras fst snd].
      repeat split; try assumption.
      exists [item_de_multa d e m]. split; [exact Hitems|].
      split; [cbn; lia|]. repeat constructor.
    + assert (Hrun : Factura.agregar_multa f r
                     = (Lanza (ValueError
                          "No se ha establecido una estrategia de multa para este préstamo"),
                        f, r1)).
      { unfold Factura.agregar_multa, bind, leer. rewrite Hd.
        apply Z.ltb_lt in Hpos. rewrite Hpos.
        unfold PrestamoBase.calcular_multa. rewrite He. reflexivity. }
      rewrite Hrun. cbn [objeto_tras fst snd]. repeat split.
      exists []. rewrite app_nil_r. repeat split; [cbn; lia | constructor].
  - rewrite (agregar_multa_sin_retraso f r r1 d Hd ltac:(lia)).
    cbn [objeto_tras fst snd]. repeat split.
    exists []. rewrite app_nil_r. repeat split; [cbn; lia | constructor].
Qed.

(** The invoice [crear_factura] builds before any fine is added. *)
Lemma crear_factura_ejecuta (p : IPrestamo) (pb : PrestamoBase)
    (incluir_multa : bool) (g : GestorFacturacion) (r : Reloj) :
  exists f0 : Factura,
    numero_factura f0 = ("FACT-UCC-" ++ format_06d (contador_facturas g))%string
    /\ prestamo f0 = p
    /\ prestamo_base f0 = pb
    /\ GestorFacturacion.crear_factura p pb incluir_multa g r
       = if incluir_multa then
           match Factura.agregar_multa f0 (avanzar r) with
           | (Retorna _, f1, r') =>
               (Retorna f1,
                {| contador_facturas := contador_facturas g + 1;
                   facturas_generadas := facturas_generadas g ++ [f1] |},
                r')
           | (Lanza ex, _, r') =>
               (Lanza ex,
                {| contador_facturas := contador_facturas g + 1;
                   facturas_generadas := facturas_generadas g |},
                r')
           end
         else
           (Retorna f0,
            {| contador_facturas := contador_facturas g + 1;
               facturas_generadas := facturas_generadas g ++ [f0] |},
            avanzar r).
Proof.
  exists {| numero_factura :=
              ("FACT-UCC-" ++ format_06d (contador_facturas g))%string;
            prestamo := p;
            prestamo_base := pb;
            items :=
              (if Qlt_bool 0 (PrestamoBase.obtener_costo_base pb)
               then [item_de_recurso pb] else [])
              ++ rev (map item_de_servicio (servicios_de p));
            fecha_emision := lecturas r (tic r) |}.
  do 3 (split; [reflexivity|]).
  unfold GestorFacturacion.crear_factura,
    GestorFacturacion.generar_numero_factura, bind, leer, mutar.
  cbn [ret]. rewrite factura_init_ejecuta.
  destruct incluir_multa; [|reflexivity].
  unfold sobre.
  match goal with |- context [Factura.agregar_multa ?f0 ?r0] =>
    destruct (Factura.agregar_multa f0 r0) as [[[m|ex] f1] r1] end;
    reflexivity.
Qed.

Lemma total_facturado_con_una_mas (fs : list Factura) (f : Factura) :
  (sum (map (fun x => Factura.calcular_total x 0.0) (fs ++ [f]))
   == sum (map (fun x => Factura.calcular_total x 0.0) fs)
      + Factura.calcular_total f 0.0)%Q.
Proof.
  rewrite map_app, sum_app. cbn [map]. rewrite sum_cons.
  unfold sum at 2. cbn [fold_left]. ring.
Qed.

(** X14: [crear_factura] returns an invoice whenever no fine is asked for or
    the base loan has a policy bound; and whenever it returns one, the
    invoice carries the number made from the counter, the chain and the base
    loan it was given, the counter has advanced by one, the invoice is the
    last of the ledger, the count of invoices has grown by one and the total
    billed by the total of the invoice. *)
Theorem crear_factura_registra :
  forall (p : IPrestamo) (pb : PrestamoBase) (incluir_multa : bool)
         (g : GestorFacturacion) (r : Reloj),
    (incluir_multa = false \/ estrategia_multa pb <> None ->
     exists (f : Factura) (g' : GestorFacturacion) (r' : Reloj),
       GestorFacturacion.crear_factura p pb incluir_multa g r
       = (Retorna f, g', r'))
    /\
    (forall (f : Factura) (g' : GestorFacturacion) (r' : Reloj),
        GestorFacturacion.crear_factura p pb incluir_multa g r
        = (Retorna f, g', r') ->
        numero_factura f
        = ("FACT-UCC-" ++ format_06d (contador_facturas g))%string
        /\ prestamo f = p
        /\ prestamo_base f = pb
        /\ contador_facturas g' = contador_facturas g + 1
        /\ facturas_generadas g' = facturas_generadas g ++ [f]
        /\ GestorFacturacion.obtener_cantidad_facturas g'
           = GestorFacturacion.obtener_cantidad_facturas g + 1
        /\ (GestorFacturacion.obtener_total_facturado g'
            == GestorFacturacion.obtener_total_facturado g
               + Factura.calcular_total f 0.0)%Q).
Proof.
  intros p pb incluir g r.
  destruct (crear_factura_ejecuta p pb incluir g r)
    as (f0 & Hnum & Hp & Hpb & Hrun).
  rewrite Hrun. clear Hrun. split.
  - intros Hok. destruct incluir; [|do 3 eexists; reflexivity].
    destruct Hok as [[=]|Hpol].
    destruct (estrategia_multa pb) as [e|] eqn:He; [|congruence].
    rewrite <- Hpb in He.
    destruct (agregar_multa_retorna f0 e (avanzar r) He) as (m & f1 & r1 & ->).
    do 3 eexists; reflexivity.
  - intros f g' r' H.
    assert (Hf : numero_factura f = numero_factura f0
                 /\ prestamo f = prestamo f0
                 /\ prestamo_base f = prestamo_base f0
                 /\ g' = {| contador_facturas := contador_facturas g + 1;
                            facturas_generadas := facturas_generadas g ++ [f] |}).
    { destruct incluir.
      - destruct (Factura.agregar_multa f0 (avanzar r)) as [[[m|ex] f1] r1]
          eqn:Hag; inversion H; subst.
        destruct (agregar_multa_conserva f0 f (avanzar r) r' _ Hag)
          as (H1 & H2 & H3 & _).
        auto.
      - inversion H; subst. auto. }
    destruct Hf as (H1 & H2 & H3 & ->).
    rewrite H1, H2, H3, Hnum, Hp, Hpb.
    unfold GestorFacturacion.obtener_cantidad_facturas,
      GestorFacturacion.obtener_total_facturado.
    cbn [contador_facturas facturas_generadas].
    repeat split.
    + rewrite length_app. cbn [List.length]. lia.
    + apply total_facturado_con_una_mas.
Qed.

(** The sample chain billed without a fine on a new ledger. *)
Lemma crear_factura_registra_witness :
  (false = false \/ estrategia_multa (prestamo_de_prueba None) <> None)
  /\ exists (f : Factura) (g' : GestorFacturacion) (r' : Reloj),
       GestorFacturacion.crear_factura (cadena_de_prueba None)
         (prestamo_de_prueba None) false GestorFacturacion.__init__
         (reloj_detenido 0)
       = (Retorna f, g', r').
Proof.
  split; [left; reflexivity|].
  apply (proj1 (crear_factura_registra (cadena_de_prueba None)
                  (prestamo_de_prueba None) false GestorFacturacion.__init__
                  (reloj_detenido 0))).
  left; reflexivity.
Defined.

(** X15: when [crear_factura] is asked for the fine of an overdue loan that
    has no policy bound, it raises the [ValueError] of the missing policy
    after the invoice number was taken: the ledger holds the same invoices
    as before, and the counter has advanced, so that number is never used. *)
Theorem crear_factura_sin_estrategia_pierde_numero :
  forall (p : IPrestamo) (pb : PrestamoBase) (g : GestorFacturacion)
         (r : Reloj),
    estrategia_multa pb = None ->
    PrestamoBase.obtener_fecha_devolucion pb < lecturas r (S (tic r)) ->
    PrestamoBase.obtener_fecha_devolucion pb + MICROSEGUNDOS_POR_DIA
    <= lecturas r (S (S (tic r))) ->
    exists (mensaje : string) (g' : GestorFacturacion) (r' : Reloj),
      GestorFacturacion.crear_factura p pb true g r
      = (Lanza (ValueError mensaje), g', r')
      /\ facturas_generadas g' = facturas_generadas g
      /\ contador_facturas g' = contador_facturas g + 1.
Proof.
  intros p pb g r He Hvencido Hdia.
  destruct (crear_factura_ejecuta p pb true g r)
    as (f0 & _ & _ & Hpb & ->).
  unfold Factura.agregar_multa, bind, leer.
  rewrite Hpb, dias_retraso_ejecuta. cbn [avanzar lecturas tic].
  destruct (Z.ltb_spec (PrestamoBase.obtener_fecha_devolucion pb)
              (lecturas r (S (tic r)))) as [_|?]; [|lia].
  assert (Hpos : 0 < days (lecturas r (S (S (tic r)))
                           - PrestamoBase.obtener_fecha_devolucion pb)).
  { unfold days. apply Z.div_str_pos. unfold MICROSEGUNDOS_POR_DIA in *. lia. }
  apply Z.ltb_lt in Hpos. rewrite Hpos.
  unfold PrestamoBase.calcular_multa. rewrite He. cbn [lanzar].
  do 3 eexists. repeat split.
Qed.

(** The sample loan without a policy, billed 24 days after its start. *)
Lemma crear_factura_sin_estrategia_pierde_numero_witness :
  estrategia_multa (prestamo_de_prueba None) = None
  /\ exists (mensaje : string) (g' : GestorFacturacion) (r' : Reloj),
       GestorFacturacion.crear_factura (cadena_de_prueba None)
         (prestamo_de_prueba None) true GestorFacturacion.__init__
         (reloj_detenido (timedelta_days 24))
       = (Lanza (ValueError mensaje), g', r')
       /\ facturas_generadas g' = []
       /\ contador_facturas g' = 2.
Proof.
  split; [reflexivity|].
  apply (crear_factura_sin_estrategia_pierde_numero (cadena_de_prueba None)
           (prestamo_de_prueba None) GestorFacturacion.__init__
           (reloj_detenido (timedelta_days 24)) eq_refl eq_refl).
  discriminate.
Defined.

(** ** Invoice numbers *)

Lemma uint_of_string_ceros (k : nat) (s : string) (d : Decimal.uint) :
  NilEmpty.uint_of_string s = Some d ->
  NilEmpty.uint_of_string (ceros k ++ s) = Some (ceros_uint k d).
Proof.
  intros H. induction k as [|k IH]; [exact H|].
  cbn [ceros append NilEmpty.uint_of_string ceros_uint]. rewrite IH. reflexivity.
Qed.

Lemma of_uint_ceros (k : nat) (d : Decimal.uint) :
  Z.of_uint (ceros_uint k d) = Z.of_uint d.
Proof.
  induction k as [|k IH]; [reflexivity|]. exact IH.
Qed.

Lemma int_of_string_sin_signo (s : string) (d : Decimal.uint) :
  s <> ""%string ->
  NilEmpty.uint_of_string s = Some d ->
  NilZero.int_of_string s = Some (Decimal.Pos d).
Proof.
  destruct s as [|a s]; [congruence|]. intros _ H.
  unfold NilZero.int_of_string.
  destruct (Ascii.eqb_spec a "-"%char) as [->|_].
  - cbn in H. destruct (NilEmpty.uint_of_string s); discriminate.
  - unfold NilZero.uint_of_string. rewrite H. reflexivity.
Qed.

Lemma leer_entero_format_06d (n : Z) :
  0 <= n -> leer_entero (format_06d n) = Some n.
Proof.
  intros Hn. unfold format_06d, leer_entero.
  destruct (Z.ltb_spec n 0) as [?|_]; [lia|].
  rewrite Z.abs_eq by assumption. cbn [append].
  set (k := (6 - String.length "" - String.length (str_int n))%nat).
  assert (Hstr : exists d : Decimal.uint,
             Z.to_int n = Decimal.Pos d /\ d <> Decimal.Nil
             /\ str_int n = NilEmpty.string_of_uint d).
  { unfold str_int. destruct n as [|p|p]; [| |lia].
    - exists (Decimal.D0 Decimal.Nil). repeat split. discriminate.
    - exists (Pos.to_uint p). cbn [Z.to_int NilZero.string_of_int].
      pose proof (DecimalPos.Unsigned.to_uint_nonnil p) as Hnn.
      repeat split; [exact Hnn|].
      unfold NilZero.string_of_uint. destruct (Pos.to_uint p); congruence. }
  destruct Hstr as (d & Hd & Hnil & Hs).
  rewrite (int_of_string_sin_signo _ (ceros_uint k d)).
  - cbn [option_map Z.of_int]. rewrite of_uint_ceros.
    change (Z.of_uint d) with (Z.of_int (Decimal.Pos d)).
    rewrite <- Hd. f_equal. apply DecimalZ.of_to.
  - rewrite Hs. destruct k; [|discriminate].
    cbn [ceros append]. destruct d; try discriminate. congruence.
  - apply uint_of_string_ceros. rewrite Hs. apply NilEmpty.usu.
Qed.

(** X16: an invoice number can be read back: for a counter that is not
    negative, the digits after the nine characters of the prefix decode to
    the counter the number was made from, and the call leaves the counter
    one higher; so two calls of [generar_numero_factura] return the same
    number only from the same counter. *)
Theorem numero_de_factura_legible :
  forall (g : GestorFacturacion) (r : Reloj),
    0 <= contador_facturas g ->
    exists numero : string,
      GestorFacturacion.generar_numero_factura g r
      = (Retorna numero,
         {| contador_facturas := contador_facturas g + 1;
            facturas_generadas := facturas_generadas g |},
         r)
      /\ contador_de_numero numero = Some (contador_facturas g)
      /\ forall (g2 : GestorFacturacion) (r2 : Reloj),
           0 <= contador_facturas g2 ->
           resultado_de (GestorFacturacion.generar_numero_factura g2 r2)
           = Retorna numero ->
           contador_facturas g2 = contador_facturas g.
Proof.
  intros g r Hg.
  assert (Hlee : forall c, 0 <= c ->
            contador_de_numero ("FACT-UCC-" ++ format_06d c) = Some c).
  { intros c Hc. unfold contador_de_numero. cbn [append desde].
    now apply leer_entero_format_06d. }
  exists ("FACT-UCC-" ++ format_06d (contador_facturas g))%string.
  split; [reflexivity|]. split; [now apply Hlee|].
  intros g2 r2 Hg2 Hnum.
  change (resultado_de (GestorFacturacion.generar_numero_factura g2 r2))
    with (Retorna ("FACT-UCC-" ++ format_06d (contador_facturas g2))%string)
    in Hnum.
  apply (f_equal (fun x => match x with
                           | Retorna s => contador_de_numero s
                           | Lanza _ => None
                           end)) in Hnum.
  rewrite !Hlee in Hnum by assumption. congruence.
Qed.

(** A new ledger. *)
Lemma numero_de_factura_legible_witness :
  0 <= contador_facturas GestorFacturacion.__init__
  /\ exists numero : string,
       GestorFacturacion.generar_numero_factura GestorFacturacion.__init__
         (reloj_detenido 0)
       = (Retorna numero,
          {| contador_facturas := 2; facturas_generadas := [] |},
          reloj_detenido 0)
       /\ contador_de_numero numero = Some 1.
Proof.
  split; [discriminate|].
  destruct (numero_de_factura_legible GestorFacturacion.__init__
              (reloj_detenido 0) ltac:(discriminate))
    as (numero & H1 & H2 & _).
  exists numero. split; assumption.
Defined.

(** ** The inventory *)

Lemma buscar_app (i : string) (rs : list Recurso) (nuevo : Recurso) :
  GestorDeInventario.buscar i (rs ++ [nuevo])
  = match GestorDeInventario.buscar i rs with
    | Some viejo => Some viejo
    | None =>
        match isbn nuevo with
        | Some j => if String.eqb j i then Some nuevo else None
        | None => None
        end
    end.
Proof.
  induction rs as [|x rs IH]; cbn [app GestorDeInventario.buscar].
  - destruct (isbn nuevo) as [j|]; [destruct (String.eqb j i)|]; reflexivity.
  - destruct (isbn x) as [j|]; [destruct (String.eqb j i)|];
      [reflexivity | exact IH | exact IH].
Qed.

(** X17: looking a resource up by ISBN returns the first resource of the
    inventory, in insertion order, whose ISBN is the one asked for, and
    [None] exactly when no resource of the inventory has it. *)
Theorem obtener_recurso_por_isbn_primero :
  forall (inventario : GestorDeInventario) (i : string),
    match GestorDeInventario.obtener_recurso_por_isbn inventario i with
    | Some rec =>
        isbn rec = Some i
        /\ exists antes despues : list Recurso,
             recursos inventario = antes ++ rec :: despues
             /\ forall x : Recurso, In x antes -> isbn x <> Some i
    | None =>
        forall x : Recurso, In x (recursos inventario) -> isbn x <> Some i
    end.
Proof.
  intros [rs] i. unfold GestorDeInventario.obtener_recurso_por_isbn.
  cbn [recursos].
  induction rs as [|x rs IH]; cbn [GestorDeInventario.buscar].
  - intros x [].
  - assert (Hotro : isbn x <> Some i ->
        match GestorDeInventario.buscar i rs with
        | Some rec =>
            isbn rec = Some i
            /\ exists antes despues : list Recurso,
                 x :: rs = antes ++ rec :: despues
                 /\ forall y : Recurso, In y antes -> isbn y <> Some i
        | None => forall y : Recurso, In y (x :: rs) -> isbn y <> Some i
        end).
    { intros Hx. destruct (GestorDeInventario.buscar i rs) as [rec|].
      - destruct IH as (Hrec & antes & despues & -> & Hantes).
        split; [exact Hrec|]. exists (x :: antes), despues.
        split; [reflexivity|]. intros y [<-|Hy]; auto.
      - intros y [<-|Hy]; auto. }
    destruct (isbn x) as [j|] eqn:Hj.
    + destruct (String.eqb_spec j i) as [->|Hne].
      * split; [exact Hj|]. exists [], rs. split; [reflexivity|].
        intros y [].
      * apply Hotro. congruence.
    + apply Hotro. discriminate.
Qed.

(** X18: registering a resource never changes what an ISBN already finds: a
    lookup that found a resource before still finds the same one, even when
    the new resource has the same ISBN; a lookup that found none finds the
    new resource exactly when the payload gave that ISBN. *)
Theorem agregar_recurso_y_buscar :
  forall (fabrica : FabricaDeRecursos) (kwargs : Kwargs)
         (inventario : GestorDeInventario) (r : Reloj) (i : string),
    exists (rec : Recurso) (inventario' : GestorDeInventario),
      GestorDeInventario.agregar_recurso_con_fabrica fabrica kwargs
        inventario r
      = (Retorna rec, inventario', avanzar r)
      /\ GestorDeInventario.obtener_recurso_por_isbn inventario' i
         = match GestorDeInventario.obtener_recurso_por_isbn inventario i with
           | Some viejo => Some viejo
           | None =>
               match kw_isbn kwargs with
               | Some j => if String.eqb j i then Some rec else None
               | None => None
               end
           end.
Proof.
  intros fabrica kwargs inventario r i.
  do 2 eexists. split; [reflexivity|].
  unfold GestorDeInventario.obtener_recurso_por_isbn. cbn [recursos].
  rewrite buscar_app. reflexivity.
Qed.

(** ** Descriptions *)

Lemma append_vacio (s : string) : (s ++ "")%string = s.
Proof. induction s; cbn; congruence. Qed.

Lemma append_asociativa (a b c : string) :
  ((a ++ b) ++ c)%string = (a ++ (b ++ c))%string.
Proof. induction a; cbn; congruence. Qed.

(** X19: the description of a chain is the description of its base loan
    followed by the fragments of its decorators in the order in which they
    were applied. *)
Theorem descripcion_en_orden_de_aplicacion :
  forall (base : PrestamoBase) (servicios : list Servicio),
    IPrestamo.obtener_descripcion (envolver base servicios)
    = (PrestamoBase.obtener_descripcion base
       ++ String.concat "" (map fragmento servicios))%string.
Proof.
  intros base servicios. unfold envolver.
  assert (H : forall (p : IPrestamo),
    IPrestamo.obtener_descripcion (fold_left decorar servicios p)
    = (IPrestamo.obtener_descripcion p
       ++ String.concat "" (map fragmento servicios))%string).
  { induction servicios as [|s ss IH]; intros p; cbn [fold_left map].
    - cbn [String.concat]. now rewrite append_vacio.
    - rewrite IH.
      assert (Hc : String.concat "" (fragmento s :: map fragmento ss)
                   = (fragmento s ++ String.concat "" (map fragmento ss))%string).
      { cbn [String.concat]. destruct (map fragmento ss) eqn:E;
          [|reflexivity].
        cbn [String.concat]. now rewrite append_vacio. }
      rewrite Hc.
      destruct s; cbn [decorar IPrestamo.obtener_descripcion fragmento];
        rewrite ?append_asociativa; reflexivity. }
  apply H.
Qed.
